(** * Social-Media-Analysis: the fetch, aggregate and persist pipeline

    A shallow embedding of [server/services/twitter_service.py] and
    [server/api/search_routes.py], and the properties of the specification
    that concern them.

    Layout: Python values and the builtins the two files call; the upstream
    HTTP API and the file system as an explicit world; [TwitterService];
    the data-frame operations and the Flask handlers of [search_routes];
    then the theorems. *)

From Stdlib Require Import Ascii SpecFloat Sorted.
From stdpp Require Import base gmap strings list fin_maps pretty.

(** ** Python values

    What [json] parsing yields and what a data-frame cell holds.  [PNone] is
    both Python's [None] and JSON's [null].  A dict is kept as an association
    list in insertion order with pairwise distinct keys ([dict_set] keeps
    them distinct).  A string is a sequence of code points below 256.  A
    float is its IEEE 754 value. *)

#[warnings="-register-all"]
Inductive pyval :=
| PNone
| PBool (b : bool)
| PInt (n : Z)
| PFloat (f : spec_float)
| PStr (s : string)
| PList (l : list pyval)
| PDict (d : list (string * pyval)).

Abbreviation dict := (list (string * pyval)).

(** Exceptions.  [Exception msg] is the plain [Exception(msg)] the source
    raises itself; the other constructors are the classes raised by the
    builtins, by [requests], by the JSON decoder and by the external
    cleaner and analyser. *)
Inductive exn :=
| Exception (msg : string)
| AttributeError
| TypeError
| ValueError
| OverflowError
| KeyError
| ZeroDivisionError
| RequestException (msg : string)
| JSONDecodeError
| ExternalError (msg : string).

Inductive result (A : Type) :=
| Ok (a : A)
| Err (e : exn).
Arguments Ok {A} a.
Arguments Err {A} e.

Global Instance result_ret : MRet result := fun A a => Ok a.
Global Instance result_bind : MBind result := fun A B f m =>
  match m with
  | Ok a => f a
  | Err e => Err e
  end.

(** [mapM f l]: a list comprehension [[f(x) for x in l]] whose body may
    raise; the first exception aborts the whole comprehension. *)
Fixpoint mapM_result {A B} (f : A -> result B) (l : list A) : result (list B) :=
  match l with
  | [] => Ok []
  | x :: r => y ← f x; ys ← mapM_result f r; Ok (y :: ys)
  end.

(** *** dict operations *)

Fixpoint dict_get (d : dict) (k : string) : option pyval :=
  match d with
  | [] => None
  | (k', v) :: r => if String.eqb k' k then Some v else dict_get r k
  end.

(** [d[k] = v], and [{**d, k: v}] on a copy: an existing key keeps its
    position. *)
Fixpoint dict_set (d : dict) (k : string) (v : pyval) : dict :=
  match d with
  | [] => [(k, v)]
  | (k', v') :: r =>
      if String.eqb k' k then (k', v) :: r else (k', v') :: dict_set r k v
  end.

(** [v.get(k, dflt)]: only a dict has the method. *)
Definition py_get (v : pyval) (k : string) (dflt : pyval) : result pyval :=
  match v with
  | PDict d => Ok (default dflt (dict_get d k))
  | _ => Err AttributeError
  end.

(** [v.keys()] *)
Definition py_keys (v : pyval) : result (list string) :=
  match v with
  | PDict d => Ok (d.*1)
  | _ => Err AttributeError
  end.

(** *** truth value, [len], iteration *)

Definition truthy (v : pyval) : bool :=
  match v with
  | PNone => false
  | PBool b => b
  | PInt n => negb (n =? 0)%Z
  | PFloat (S754_zero _) => false
  | PFloat _ => true
  | PStr s => negb (String.eqb s "")
  | PList l => negb (bool_decide (l = []))
  | PDict d => negb (bool_decide (d = []))
  end.

Definition py_len (v : pyval) : result nat :=
  match v with
  | PStr s => Ok (String.length s)
  | PList l => Ok (length l)
  | PDict d => Ok (length d)
  | _ => Err TypeError
  end.

(** What a [for] loop or comprehension over [v] visits. *)
Definition py_iter (v : pyval) : result (list pyval) :=
  match v with
  | PStr s =>
      Ok ((fun c => PStr (String c EmptyString))
            <$> String.list_ascii_of_string s)
  | PList l => Ok l
  | PDict d => Ok (PStr <$> d.*1)
  | _ => Err TypeError
  end.

(** *** [int(v)] *)

(** [str.isspace] on code points below 256. *)
Definition is_space (c : ascii) : bool :=
  let n := nat_of_ascii c in
  ((9 <=? n) && (n <=? 13)) || ((28 <=? n) && (n <=? 32))
  || (n =? 133) || (n =? 160).

Definition digit_value (c : ascii) : option Z :=
  let n := nat_of_ascii c in
  if (48 <=? n) && (n <=? 57) then Some (Z.of_nat (n - 48)) else None.

Fixpoint lstrip (l : list ascii) : list ascii :=
  match l with
  | c :: r => if is_space c then lstrip r else l
  | [] => []
  end.
Definition strip (l : list ascii) : list ascii :=
  reverse (lstrip (reverse (lstrip l))).

(** Decimal digits, single underscores allowed between two digits.
    [after_digit] tells whether the previous character was a digit. *)
Fixpoint parse_digits (l : list ascii) (acc : Z) (after_digit : bool)
  : option Z :=
  match l with
  | [] => if after_digit then Some acc else None
  | c :: r =>
      match digit_value c with
      | Some d => parse_digits r (10 * acc + d)%Z true
      | None =>
          if Ascii.eqb c "_" && after_digit then parse_digits r acc false
          else None
      end
  end.

(** [int(s)]: surrounding white space, an optional sign, decimal digits.
    The cap that Python 3.11 puts on the number of digits (4300 unless
    configured otherwise) is not modelled. *)
Definition int_of_string (s : string) : result Z :=
  let body := strip (String.list_ascii_of_string s) in
  let parsed :=
    match body with
    | "-"%char :: r => Z.opp <$> parse_digits r 0 false
    | "+"%char :: r => parse_digits r 0 false
    | _ => parse_digits body 0 false
    end in
  match parsed with
  | Some n => Ok n
  | None => Err ValueError
  end.

(** Truncation towards zero; [s = true] is the negative sign. *)
Definition int_of_float (f : spec_float) : result Z :=
  match f with
  | S754_zero _ => Ok 0%Z
  | S754_infinity _ => Err OverflowError
  | S754_nan => Err ValueError
  | S754_finite s m e =>
      let a := if (0 <=? e)%Z then (Z.pos m * 2 ^ e)%Z
               else (Z.pos m / 2 ^ (- e))%Z in
      Ok (if s then (- a)%Z else a)
  end.

Definition py_int (v : pyval) : result Z :=
  match v with
  | PBool b => Ok (if b then 1 else 0)%Z
  | PInt n => Ok n
  | PFloat f => int_of_float f
  | PStr s => int_of_string s
  | PNone | PList _ | PDict _ => Err TypeError
  end.

(** ** Data frames

    A frame has an index of [df_len] rows and labelled columns, each a list
    of [df_len] cells; labels are pairwise distinct.  Cell-level dtype
    coercions of pandas are not modelled. *)

Record DataFrame := {
  df_len : nat;
  df_data : list (string * list pyval)
}.

Definition NaN : pyval := PFloat S754_nan.

(** [df.columns.tolist()] *)
Definition df_columns (df : DataFrame) : list string := (df_data df).*1.

(** [df[c]] for a label that is present. *)
Fixpoint column_get (cols : list (string * list pyval)) (c : string)
  : option (list pyval) :=
  match cols with
  | [] => None
  | (c', cells) :: r => if String.eqb c' c then Some cells else column_get r c
  end.

(** Labels in order of first appearance. *)
Fixpoint first_seen (l : list string) : list string :=
  match l with
  | [] => []
  | x :: r => x :: filter (fun y => y ≠ x) (first_seen r)
  end.

(** [pd.DataFrame(records)] for a list of dicts: one row per dict, one
    column per key, a missing entry read as NaN. *)
Definition pd_DataFrame (records : list dict) : DataFrame :=
  {| df_len := length records;
     df_data :=
       (fun k => (k, (fun r => default NaN (dict_get r k)) <$> records))
         <$> first_seen (concat ((fun r : dict => r.*1) <$> records)) |}.

(** ** The world: upstream API and files

    One process, one working directory: a path is the string the code
    passes to [open].  A file holds a JSON document ([json.dump] then
    [json.load] is the identity on [pyval]) or something else. *)

Record request := {
  req_url : string;
  req_headers : list (string * string);
  req_params : dict
}.

(** What one [requests.get] call comes back with: an exception of
    [requests], or a response with its status, its text and the value of
    [response.json()] ([None] when the body is not JSON). *)
Inductive outcome :=
| Raised (msg : string)
| Response (status_code : Z) (text : string) (json : option pyval).

Inductive file :=
| JsonFile (v : pyval)
| OtherFile (raw : string).

Record World := {
  w_requests : list request;
  w_slept : nat;
  w_files : gmap string file
}.

Definition log_request (r : request) (w : World) : World :=
  {| w_requests := w_requests w ++ [r];
     w_slept := w_slept w;
     w_files := w_files w |}.

Definition time_sleep (secs : nat) (w : World) : World :=
  {| w_requests := w_requests w;
     w_slept := w_slept w + secs;
     w_files := w_files w |}.

Definition write_json (path : string) (v : pyval) (w : World) : World :=
  {| w_requests := w_requests w;
     w_slept := w_slept w;
     w_files := <[path := JsonFile v]> (w_files w) |}.

(** [TwitterConfig] is declared in [config/config.py]; the fields are the
    ones [TwitterService] reads, and the configuration object is a
    parameter of everything below. *)
Record TwitterConfig := {
  API_KEY : string;
  API_HOST : string;
  SEARCH_URL : string;
  DEFAULT_SEARCH_PARAMS : dict
}.

(** ** twitter_service.py *)

Module TwitterService.

(** [_process_tweet_data]: the dict display is evaluated entry by entry, so
    the first failing entry decides the exception. *)
Definition _process_tweet_data (tweet : pyval) : result dict :=
  id ← py_get tweet "tweet_id" PNone;
  text_dflt ← py_get tweet "text" (PStr "");
  text ← py_get tweet "tweet_text" text_dflt;
  timestamp ← py_get tweet "creation_date" PNone;
  favorite_count ← py_get tweet "favorite_count" (PInt 0) ≫= py_int;
  retweet_count ← py_get tweet "retweet_count" (PInt 0) ≫= py_int;
  reply_count ← py_get tweet "reply_count" (PInt 0) ≫= py_int;
  quote_count ← py_get tweet "quote_count" (PInt 0) ≫= py_int;
  views ← py_get tweet "views" (PInt 0);
  user_followers ←
    (u ← py_get tweet "user" (PDict []); py_get u "follower_count" (PInt 0));
  user_name ←
    (u ← py_get tweet "user" (PDict []); py_get u "name" (PStr ""));
  user_username ←
    (u ← py_get tweet "user" (PDict []); py_get u "username" (PStr ""));
  Ok [ ("id", id);
       ("text", text);
       ("timestamp", timestamp);
       ("favorite_count", PInt favorite_count);
       ("retweet_count", PInt retweet_count);
       ("reply_count", PInt reply_count);
       ("quote_count", PInt quote_count);
       ("views", views);
       ("user_followers", user_followers);
       ("user_name", user_name);
       ("user_username", user_username) ].

Definition response_json (json : option pyval) : result pyval :=
  match json with
  | Some v => Ok v
  | None => Err JSONDecodeError
  end.

(** What one pass through the body of the [while] loop decides. *)
Inductive step :=
| Break
| Continue (new_tweets : list dict) (continuation_token : pyval).

Section Fetch.
Variable config : TwitterConfig.
(** [upstream n]: what the [n]-th [requests.get] of the process comes
    back with (counting from 0). *)
Variable upstream : nat -> outcome.

Definition requests_get (url : string) (headers : list (string * string))
    (params : dict) (w : World) : outcome * World :=
  (upstream (length (w_requests w)),
   log_request
     {| req_url := url; req_headers := headers; req_params := params |} w).

Definition max_pages : nat := 5.

(** Lines 34-46: the initial response.  The f-strings of the debug calls
    are evaluated whatever the log level, so [data.keys()] and
    [len(results)] can raise. *)
Definition initial_response (o : outcome) : result (list dict * pyval) :=
  match o with
  | Raised msg => Err (RequestException msg)
  | Response status_code text json =>
      if negb (status_code =? 200)%Z then
        Err (Exception ("API request failed: " +:+ pretty status_code
                        +:+ " - " +:+ text))
      else
        data ← response_json json;
        _ ← py_keys data;
        _ ← py_get data "results" (PList []) ≫= py_len;
        initial_tweets ← py_get data "results" (PList []);
        items ← py_iter initial_tweets;
        processed ← mapM_result _process_tweet_data items;
        continuation_token ← py_get data "continuation_token" PNone;
        Ok (processed, continuation_token)
  end.

(** Lines 68-94: the [try] body of one iteration, from the response on.
    [Err] is an exception, which the [except] of line 96 turns into a
    [break]. *)
Definition continuation_response (o : outcome) : result step :=
  match o with
  | Raised msg => Err (RequestException msg)
  | Response status_code text json =>
      if negb (status_code =? 200)%Z then Ok Break
      else
        cont_data ← response_json json;
        _ ← py_keys cont_data;
        _ ← py_get cont_data "results" (PList []) ≫= py_len;
        new_tweets ← py_get cont_data "results" (PList []);
        if negb (truthy new_tweets) then Ok Break
        else
          items ← py_iter new_tweets;
          processed ← mapM_result _process_tweet_data items;
          continuation_token ← py_get cont_data "continuation_token" PNone;
          Ok (Continue processed continuation_token)
  end.

(** Lines 52-98: [while continuation_token and page < max_pages].  The
    recursion is on [fuel]; [max_pages - page] of it is enough
    ([continuation_loop_fuel]). *)
Fixpoint continuation_loop (fuel : nat) (headers : list (string * string))
    (params : dict) (page : nat) (continuation_token : pyval)
    (all_tweets_data : list dict) (w : World) : list dict * World :=
  match fuel with
  | 0 => (all_tweets_data, w)
  | S fuel' =>
      if truthy continuation_token && (page <? max_pages) then
        let w := time_sleep 1 w in
        let continuation_params :=
          dict_set params "continuation_token" continuation_token in
        let '(o, w) :=
          requests_get (SEARCH_URL config +:+ "/continuation") headers
            continuation_params w in
        match continuation_response o with
        | Ok (Continue new_tweets continuation_token) =>
            continuation_loop fuel' headers params (page + 1)
              continuation_token (all_tweets_data ++ new_tweets) w
        | Ok Break | Err _ => (all_tweets_data, w)
        end
      else (all_tweets_data, w)
  end.

(** Lines 20-102: everything up to the emptiness test. *)
Definition collect_tweets (query : pyval) (w : World)
  : result (list dict) * World :=
  let headers :=
    [("x-rapidapi-key", API_KEY config);
     ("x-rapidapi-host", API_HOST config)] in
  let all_tweets_data : list dict := [] in
  let params := dict_set (DEFAULT_SEARCH_PARAMS config) "query" query in
  let '(o, w) := requests_get (SEARCH_URL config) headers params w in
  match initial_response o with
  | Err e => (Err e, w)
  | Ok (processed, continuation_token) =>
      let all_tweets_data := all_tweets_data ++ processed in
      let page := 1 in
      let '(all_tweets_data, w) :=
        continuation_loop max_pages headers params page continuation_token
          all_tweets_data w in
      (Ok all_tweets_data, w)
  end.

Definition fetch_tweets (query : pyval) (w : World)
  : result DataFrame * World :=
  match collect_tweets query w with
  | (Err e, w) => (Err e, w)
  | (Ok all_tweets_data, w) =>
      if bool_decide (all_tweets_data = []) then
        (Err (Exception "No tweets found in the response"), w)
      else (Ok (pd_DataFrame all_tweets_data), w)
  end.

End Fetch.

(** *** [fetch_trends] *)

Section Trends.
Variable config : TwitterConfig.
(** [self.config.TRENDS_URL], the one field of the configuration that only
    [fetch_trends] reads. *)
Variable TRENDS_URL : string.
Variable upstream : nat -> outcome.
(** [str(e)] for the exceptions whose text the libraries choose. *)
Variable str_exn : exn -> string.
(** Whether the error of [response.json()] is a [RequestException]: it is
    one from requests 2.27 on, and a plain [ValueError] before. *)
Variable json_error_is_request_exception : bool.

Definition exn_text (e : exn) : string :=
  match e with
  | Exception msg | RequestException msg | ExternalError msg => msg
  | _ => str_exn e
  end.

(** What [except requests.exceptions.RequestException] catches. *)
Definition is_request_exception (e : exn) : bool :=
  match e with
  | RequestException _ => true
  | JSONDecodeError => json_error_is_request_exception
  | _ => false
  end.

(** Lines 178-189: one pass of the loop; [None] is the [continue] of a
    trend without name. *)
Definition format_trend (index : nat) (trend : pyval)
  : result (option dict) :=
  name ← py_get trend "name" PNone;
  if negb (truthy name) then Ok None
  else
    name ← py_get trend "name" (PStr "");
    url ← py_get trend "url" (PStr "");
    tweet_volume ← py_get trend "tweet_volume" (PInt 0);
    query ← py_get trend "query" (PStr "");
    promoted_content ← py_get trend "promoted_content" PNone;
    Ok (Some [ ("name", name);
               ("url", url);
               ("tweet_volume",
                 if truthy tweet_volume then tweet_volume else PInt 0);
               ("rank", PInt (Z.of_nat index + 1));
               ("query", query);
               ("promoted_content", promoted_content) ]).

(** Lines 176-189: [for index, trend in enumerate(trends)], from [index]
    on. *)
Fixpoint format_trends (index : nat) (trends : list pyval)
  : result (list dict) :=
  match trends with
  | [] => Ok []
  | trend :: rest =>
      formatted_trend ← format_trend index trend;
      formatted_trends ← format_trends (S index) rest;
      Ok (match formatted_trend with
          | Some d => d :: formatted_trends
          | None => formatted_trends
          end)
  end.

(** Lines 155-192: the [try] body, from the response on. *)
Definition trends_response (o : outcome) : result (list dict) :=
  match o with
  | Raised msg => Err (RequestException msg)
  | Response status_code text json =>
      if negb (status_code =? 200)%Z then
        Err (Exception ("API request failed: " +:+ pretty status_code
                        +:+ " - " +:+ text))
      else
        response_data ← response_json json;
        match response_data with
        | PList (first :: _) =>
            trends ← py_get first "trends" (PList []);
            if negb (truthy trends) then Ok []
            else
              items ← py_iter trends;
              format_trends 0 items
        | _ => Ok []
        end
  end.

Definition fetch_trends (woeid : pyval) (w : World)
  : result (list dict) * World :=
  let headers :=
    [("x-rapidapi-key", API_KEY config);
     ("x-rapidapi-host", API_HOST config)] in
  let querystring := [("woeid", woeid)] in
  let '(o, w) := requests_get upstream TRENDS_URL headers querystring w in
  match trends_response o with
  | Ok formatted_trends => (Ok formatted_trends, w)
  | Err e =>
      if is_request_exception e then
        (Err (Exception ("Network error while fetching trends: "
                         +:+ exn_text e)), w)
      else
        (Err (Exception ("Unexpected error while fetching trends: "
                         +:+ exn_text e)), w)
  end.

End Trends.

End TwitterService.

Import TwitterService.

(** ** search_routes.py *)

Module SearchRoutes.

(** *** pandas and builtins used by the routes *)

Definition binary64_of_Z (n : Z) : spec_float :=
  binary_normalize 53 1024 n 0 false.

(** The integer a float is equal to, if any. *)
Definition float_integer (f : spec_float) : option Z :=
  match f with
  | S754_zero _ => Some 0%Z
  | S754_finite s m e =>
      if (0 <=? e)%Z then Some (cond_Zopp s (Z.pos m * 2 ^ e))
      else if (Z.pos m mod 2 ^ (- e) =? 0)%Z
           then Some (cond_Zopp s (Z.pos m / 2 ^ (- e)))
           else None
  | _ => None
  end.

(** Python's [a == b]. *)
Fixpoint py_eq (a b : pyval) {struct a} : bool :=
  match a, b with
  | PNone, PNone => true
  | PStr s, PStr t => String.eqb s t
  | PBool x, PBool y => Bool.eqb x y
  | PBool x, PInt n | PInt n, PBool x => (n =? (if x then 1 else 0))%Z
  | PInt n, PInt m => (n =? m)%Z
  | PFloat f, PFloat g => SFeqb f g
  | PFloat f, PInt n | PInt n, PFloat f =>
      match float_integer f with Some m => (n =? m)%Z | None => false end
  | PFloat f, PBool x | PBool x, PFloat f =>
      match float_integer f with
      | Some m => (m =? (if x then 1 else 0))%Z
      | None => false
      end
  | PList l1, PList l2 =>
      (fix go (l1 l2 : list pyval) : bool :=
         match l1, l2 with
         | [], [] => true
         | x :: r, y :: s => py_eq x y && go r s
         | _, _ => false
         end) l1 l2
  | PDict d1, PDict d2 =>
      (length d1 =? length d2)
      && (fix go (d : dict) : bool :=
            match d with
            | [] => true
            | (k, v) :: r =>
                match dict_get d2 k with
                | Some v' => py_eq v v'
                | None => false
                end && go r
            end) d1
  | _, _ => false
  end.

(** [pd.isna] on a cell. *)
Definition isna (v : pyval) : bool :=
  match v with
  | PNone | PFloat S754_nan => true
  | _ => false
  end.

Definition hashable (v : pyval) : bool :=
  match v with
  | PList _ | PDict _ => false
  | _ => true
  end.

(** One more occurrence of [v] in a tally kept in order of first
    appearance. *)
Fixpoint bump (v : pyval) (acc : list (pyval * nat)) : list (pyval * nat) :=
  match acc with
  | [] => [(v, 1)]
  | (u, n) :: r => if py_eq u v then (u, S n) :: r else (u, n) :: bump v r
  end.

Definition tally (cells : list pyval) : list (pyval * nat) :=
  fold_left (fun acc v => bump v acc) cells [].

Fixpoint insert_by_count (x : pyval * nat) (l : list (pyval * nat))
  : list (pyval * nat) :=
  match l with
  | [] => [x]
  | y :: r => if y.2 <=? x.2 then x :: y :: r else y :: insert_by_count x r
  end.

Definition sort_by_count (l : list (pyval * nat)) : list (pyval * nat) :=
  foldr insert_by_count [] l.

(** [series.value_counts().to_dict()]: missing cells are dropped, the
    most frequent value comes first.  The order among values of equal
    count depends on the pandas version; here it is first appearance. *)
Definition value_counts (cells : list pyval) : result (list (pyval * nat)) :=
  if forallb hashable cells
  then Ok (sort_by_count (tally (filter (fun v => isna v = false) cells)))
  else Err TypeError.

(** [zip] of the unpacked list of arrays: stops with the shortest, and
    yields nothing when there is no array. *)
Fixpoint zip_star (arrays : list (list pyval)) : list (list pyval) :=
  match arrays with
  | [] => []
  | [a] => (fun x => [x]) <$> a
  | a :: rest => zip_with cons a (zip_star rest)
  end.

(** [df[columns]] for labels that are all present. *)
Definition df_select (df : DataFrame) (columns : list string)
  : list (string * list pyval) :=
  omap (fun c => (fun cells => (c, cells)) <$> column_get (df_data df) c)
       columns.

(** [frame.to_dict(orient='records')]: the rows are [itertuples], that is
    [zip] over the unpacked columns, so a frame without columns gives no
    record. *)
Definition to_dict_records (data : list (string * list pyval)) : list dict :=
  (fun row => zip data.*1 row) <$> zip_star data.*2.

(** [df.iterrows()]: one row per index entry. *)
Definition iterrows (df : DataFrame) : list dict :=
  (fun i => (fun col : string * list pyval =>
               (col.1, default NaN (col.2 !! i))) <$> df_data df)
    <$> seq 0 (df_len df).

(** [row[k]] *)
Definition row_item (row : dict) (k : string) : result pyval :=
  match dict_get row k with
  | Some v => Ok v
  | None => Err KeyError
  end.

Fixpoint str_replace (old new : ascii) (s : string) : string :=
  match s with
  | EmptyString => EmptyString
  | String c r =>
      String (if Ascii.eqb c old then new else c) (str_replace old new r)
  end.

(** [s[:n]] *)
Fixpoint str_take (n : nat) (s : string) : string :=
  match n, s with
  | S n', String c r => String c (str_take n' r)
  | _, _ => EmptyString
  end.

(** [os.path.basename]: what follows the last slash. *)
Fixpoint basename_from (l : list ascii) (cur : list ascii) : list ascii :=
  match l with
  | [] => reverse cur
  | c :: r =>
      if Ascii.eqb c "/" then basename_from r [] else basename_from r (c :: cur)
  end.

Definition basename (path : string) : string :=
  String.string_of_list_ascii
    (basename_from (String.list_ascii_of_string path) []).

(** One entry of the language distribution.  [percentage] counts tenths
    of a percent: 167 stands for the value 16.7 that [round(x, 1)]
    returns. *)
Record LanguageStat := {
  language : pyval;
  code : pyval;
  count : nat;
  percentage : Z
}.

(** The double nearest to [t / 10]. *)
Definition float_of_tenths (t : Z) : spec_float :=
  SFdiv 53 1024 (binary64_of_Z t) (binary64_of_Z 10).

Definition stat_to_dict (s : LanguageStat) : pyval :=
  PDict [ ("language", language s);
          ("code", code s);
          ("count", PInt (Z.of_nat (count s)));
          ("percentage", PFloat (float_of_tenths (percentage s))) ].

Record response := {
  status : Z;
  body : pyval
}.

Definition desired_columns : list string :=
  ["id"; "text"; "cleaned_text"; "favorite_count";
   "retweet_count"; "reply_count"; "sentiment"; "sentiment_score";
   "original_lang"].

(** *** Paths

    The world stores files under the paths they were opened with; a
    directory is there when a file lies below it (an empty directory and
    no directory look alike, and the handlers answer alike in both
    cases). *)

(** [Some rest] when [s] is [p] followed by [rest]. *)
Fixpoint strip_prefix (p s : string) : option string :=
  match p, s with
  | EmptyString, _ => Some s
  | String a p', String b s' =>
      if Ascii.eqb a b then strip_prefix p' s' else None
  | String _ _, EmptyString => None
  end.

(** What comes before the first slash. *)
Fixpoint first_component (s : string) : string :=
  match s with
  | EmptyString => EmptyString
  | String c r =>
      if Ascii.eqb c "/" then EmptyString else String c (first_component r)
  end.

(** [s[n:]] *)
Fixpoint str_drop (n : nat) (s : string) : string :=
  match n, s with
  | S n', String _ r => str_drop n' r
  | _, _ => s
  end.

(** [s.endswith(suffix)] *)
Definition str_endswith (s suffix : string) : bool :=
  (String.length suffix <=? String.length s)
  && String.eqb (str_drop (String.length s - String.length suffix) s) suffix.

Definition is_directory (fs : gmap string file) (path : string) : bool :=
  existsb (fun k => bool_decide (is_Some (strip_prefix (path +:+ "/") k)))
          (elements (dom fs)).

(** [os.path.exists(path)] *)
Definition os_path_exists (fs : gmap string file) (path : string) : bool :=
  bool_decide (is_Some (fs !! path)) || is_directory fs path.

(** [os.listdir(dir)]: the entries of a directory, each once, in an order
    that the system chooses. *)
Definition os_listdir (fs : gmap string file) (dir : string) : list string :=
  remove_dups
    (omap (fun k =>
             match strip_prefix (dir +:+ "/") k with
             | Some rest =>
                 match first_component rest with
                 | EmptyString => None
                 | entry => Some entry
                 end
             | None => None
             end)
          (elements (dom fs))).

Section Routes.
Variable config : TwitterConfig.
Variable upstream : nat -> outcome.
(** [round((count / total) * 100, 1)] is computed on doubles.  The model
    computes on the exact quotient; where [1000 * count / total] falls
    exactly half way between two tenths the double's rounding error
    decides, and [tie_up count total] says which way. *)
Variable tie_up : nat -> nat -> bool.
(** [datetime.datetime.now().strftime("%Y-%m-%d_%H-%M-%S")] *)
Variable strftime_now : World -> string.
(** The external cleaner and analyser, and [str(e)]. *)
Variable clean_dataframe :
  DataFrame -> pyval -> World -> result DataFrame * World.
Variable analyze : DataFrame -> World -> result pyval * World.
Variable str_exn : exn -> string.

Definition round_percentage (count total : nat) : result Z :=
  if total =? 0 then Err ZeroDivisionError
  else
    let num := (1000 * Z.of_nat count)%Z in
    let q := (num / Z.of_nat total)%Z in
    let r := (num mod Z.of_nat total)%Z in
    Ok (if (2 * r <? Z.of_nat total)%Z then q
        else if (Z.of_nat total <? 2 * r)%Z then (q + 1)%Z
        else if tie_up count total then (q + 1)%Z else q).

(** Lines 92-98: the body of the loop over [lang_counts.items()]. *)
Definition language_entry (total : nat) (item : pyval * nat)
  : result LanguageStat :=
  let '(lang, count) := item in
  let lang_name :=
    if py_eq lang (PStr "hi") then PStr "Hindi"
    else if py_eq lang (PStr "en") then PStr "English"
    else lang in
  pct ← round_percentage count total;
  Ok {| language := lang_name;
        code := lang;
        count := count;
        percentage := pct |}.

(** The source returns [{'languages': languages}]; both callers take the
    list out of it. *)
Definition calculate_language_stats (df : DataFrame)
  : result (list LanguageStat) :=
  match column_get (df_data df) "original_lang" with
  | None => Ok []
  | Some cells =>
      lang_counts ← value_counts cells;
      let total := df_len df in
      mapM_result (language_entry total) lang_counts
  end.

Definition prepare_tweet_data (df : DataFrame) : result (list dict) :=
  mapM_result
    (fun row : dict =>
       id ← row_item row "id";
       text ← row_item row "text";
       text' ← row_item row "text";
       let original_lang :=
         default (PStr "en") (dict_get row "original_lang") in
       Ok [ ("id", id);
            ("text", text);
            ("cleaned_text", default text' (dict_get row "cleaned_text"));
            ("favorite_count",
              default (PInt 0) (dict_get row "favorite_count"));
            ("retweet_count",
              default (PInt 0) (dict_get row "retweet_count"));
            ("reply_count", default (PInt 0) (dict_get row "reply_count"));
            ("sentiment",
              default (PStr "neutral") (dict_get row "sentiment"));
            ("sentiment_score",
              default (PInt 0) (dict_get row "sentiment_score"));
            ("original_lang", original_lang);
            ("has_translation",
              PBool (negb (py_eq original_lang (PStr "en")))) ])
    (iterrows df).

(** Line 67: blanks, slashes and backslashes become underscores, then
    [[:30]]. *)
Definition sanitize_query (search_query : pyval) : result string :=
  match search_query with
  | PStr s =>
      Ok (str_take 30
            (str_replace "\" "_"
               (str_replace "/" "_" (str_replace " " "_" s))))
  | _ => Err AttributeError
  end.

Definition save_tweets_with_sentiment (df : DataFrame)
    (search_query : pyval) (w : World) : result string * World :=
  let available_columns := df_columns df in
  let columns_to_save :=
    filter (fun col => col ∈ available_columns) desired_columns in
  let tweet_data := df_select df columns_to_save in
  let tweet_records := to_dict_records tweet_data in
  let timestamp := strftime_now w in
  match calculate_language_stats df with
  | Err e => (Err e, w)
  | Ok lang_stats =>
      let metadata :=
        [ ("search_query", search_query);
          ("timestamp", PStr timestamp);
          ("total_tweets", PInt (Z.of_nat (length tweet_records)));
          ("language_stats", PList (stat_to_dict <$> lang_stats)) ] in
      let data_to_save :=
        PDict [ ("metadata", PDict metadata);
                ("tweets", PList (PDict <$> tweet_records)) ] in
      match sanitize_query search_query with
      | Err e => (Err e, w)
      | Ok sanitized_query =>
          let filename :=
            "data/tweets_" +:+ sanitized_query +:+ "_" +:+ timestamp
            +:+ ".json" in
          let w := write_json filename data_to_save w in
          let w := write_json "data/latest_tweets.json" data_to_save w in
          (Ok filename, w)
      end
  end.

(** Lines 134-164: the [try] body of the handler. *)
Definition variable_pipeline (user_input : pyval) (w : World)
  : result pyval * World :=
  match fetch_tweets config upstream user_input w with
  | (Err e, w) => (Err e, w)
  | (Ok df, w) =>
  match clean_dataframe df user_input w with
  | (Err e, w) => (Err e, w)
  | (Ok df, w) =>
  match analyze df w with
  | (Err e, w) => (Err e, w)
  | (Ok analysis_results, w) =>
  match calculate_language_stats df with
  | Err e => (Err e, w)
  | Ok lang_stats =>
  match prepare_tweet_data df with
  | Err e => (Err e, w)
  | Ok tweet_data =>
  match save_tweets_with_sentiment df user_input w with
  | (Err e, w) => (Err e, w)
  | (Ok filename, w) =>
      (sentiment_analysis ←
         py_get analysis_results "sentiment_analysis" (PDict []);
       engagement_metrics ←
         py_get analysis_results "engagement_metrics" (PDict []);
       Ok (PDict
             [ ("sentiment_analysis", sentiment_analysis);
               ("engagement_metrics", engagement_metrics);
               ("tweets_data",
                 PDict [ ("filename", PStr (basename filename));
                         ("count", PInt (Z.of_nat (df_len df)));
                         ("search_query", user_input) ]) ]),
       w)
  end end end end end end.

(** [POST /api/variable].  [request_json] is the parsed body.  [Err] is
    an exception that leaves the handler. *)
Definition variable (request_json : pyval) (w : World)
  : result response * World :=
  match py_get request_json "searchQuery" (PStr "") with
  | Err e => (Err e, w)
  | Ok user_input =>
      if negb (truthy user_input) then
        (Ok {| status := 400;
               body := PDict
                 [("message", PStr "No search query provided.")] |}, w)
      else
        match variable_pipeline user_input w with
        | (Ok response, w) => (Ok {| status := 200; body := response |}, w)
        | (Err e, w) =>
            (Ok {| status := 500;
                   body := PDict
                     [ ("error", PStr (str_exn e));
                       ("message",
                         PStr "Failed to fetch or process Twitter data") ]
                |}, w)
        end
  end.

(** [GET /api/tweets] *)
Definition get_latest_tweets (w : World) : response :=
  match w_files w !! "server/data/latest_tweets.json" with
  | None =>
      {| status := 404;
         body := PDict [("message", PStr "No tweet data available yet")] |}
  | Some (JsonFile tweet_data) => {| status := 200; body := tweet_data |}
  | Some (OtherFile _) =>
      {| status := 500;
         body := PDict
           [ ("error", PStr (str_exn JSONDecodeError));
             ("message", PStr "Failed to retrieve tweet data") ] |}
  end.

(** The [OSError]s of [open] on a directory and of [os.listdir] on a
    file. *)
Variable is_a_directory_error : exn.
Variable not_a_directory_error : exn.

(** [GET /api/translations/<tweet_id>] *)
Definition get_translation (tweet_id : string) (w : World) : response :=
  let translation_file :=
    "server/data/translations/" +:+ tweet_id +:+ ".json" in
  if negb (os_path_exists (w_files w) translation_file) then
    {| status := 404;
       body := PDict [("message", PStr "Translation not available")] |}
  else
    match w_files w !! translation_file with
    | Some (JsonFile translation_data) =>
        {| status := 200; body := translation_data |}
    | Some (OtherFile _) =>
        {| status := 500;
           body := PDict
             [ ("error", PStr (str_exn JSONDecodeError));
               ("message", PStr "Failed to retrieve translation") ] |}
    | None =>
        {| status := 500;
           body := PDict
             [ ("error", PStr (str_exn is_a_directory_error));
               ("message", PStr "Failed to retrieve translation") ] |}
    end.

(** [GET /api/translations] *)
Definition list_translations (w : World) : response :=
  let translations_dir := "server/data/translations" in
  if negb (os_path_exists (w_files w) translations_dir) then
    {| status := 200; body := PDict [("translations", PList [])] |}
  else
    match w_files w !! translations_dir with
    | Some _ =>
        {| status := 500;
           body := PDict
             [ ("error", PStr (str_exn not_a_directory_error));
               ("message", PStr "Failed to list translations") ] |}
    | None =>
        let translation_files :=
          (fun f => str_take (String.length f - 5) f)
            <$> filter (fun f => str_endswith f ".json")
                       (os_listdir (w_files w) translations_dir) in
        {| status := 200;
           body := PDict
             [("translations", PList (PStr <$> translation_files))] |}
    end.

End Routes.

End SearchRoutes.

Import SearchRoutes.

(** * Vocabulary of the properties *)

Definition count_fields : list string :=
  ["favorite_count"; "retweet_count"; "reply_count"; "quote_count"].

(** The entry of [tweet["user"]] that [_process_tweet_data] reads: [Some
    None] when it is absent (no user, or a user dict without the key),
    [None] when the user is not a dict. *)
Definition user_entry (d : dict) (k : string) : option (option pyval) :=
  match dict_get d "user" with
  | None => Some None
  | Some (PDict u) => Some (dict_get u k)
  | Some _ => None
  end.

(** The keys of a normalised record. *)
Definition record_keys : list string :=
  ["id"; "text"; "timestamp"; "favorite_count"; "retweet_count";
   "reply_count"; "quote_count"; "views"; "user_followers"; "user_name";
   "user_username"].

(** The raw results a response carries, and the id of a raw result. *)
Definition page_results (o : outcome) : list pyval :=
  match o with
  | Response _ _ (Some data) =>
      match py_get data "results" (PList []) ≫= py_iter with
      | Ok items => items
      | Err _ => []
      end
  | _ => []
  end.



(** The requests made between two states of the world. *)
Definition requests_issued (w w' : World) : nat :=
  length (w_requests w') - length (w_requests w).

(** A continuation request that fails: [requests.get] raises, the status
    is not 200, or handling the response raises. *)
Definition continuation_failed (o : outcome) : bool :=
  match o with
  | Raised _ => true
  | Response status_code _ _ =>
      negb (status_code =? 200)%Z
      || match continuation_response o with
         | Err _ => true
         | Ok _ => false
         end
  end.

(** A response with status 200 that carries non-empty results and a
    continuation token. *)
Definition carries_token_and_results (o : outcome) : bool :=
  match o with
  | Response status_code _ (Some (PDict data)) =>
      (status_code =? 200)%Z
      && match dict_get data "results", dict_get data "continuation_token" with
         | Some (PList (_ :: _)), Some token => truthy token
         | _, _ => false
         end
  | _ => false
  end.

(** Every raw result of the response normalises. *)
Definition results_normalise (o : outcome) : bool :=
  forallb
    (fun tweet =>
       match _process_tweet_data tweet with Ok _ => true | Err _ => false end)
    (page_results o).

Definition no_tweets_found : exn :=
  Exception "No tweets found in the response".

(** Every exception but the plain [Exception] of the source. *)
Definition library_error (e : exn) : Prop :=
  match e with
  | Exception _ => False
  | _ => True
  end.

Definition sum_counts (l : list (pyval * nat)) : nat :=
  foldr (fun x total => x.2 + total) 0 l.

(** The sum of the percentages, in tenths of a percent. *)
Definition sum_percentages (stats : list LanguageStat) : Z :=
  foldr (fun s total => (percentage s + total)%Z) 0%Z stats.

(** ** Sample inputs *)

Definition sample_config : TwitterConfig :=
  {| API_KEY := "key";
     API_HOST := "twitter154.p.rapidapi.com";
     SEARCH_URL := "https://twitter154.p.rapidapi.com/search/search";
     DEFAULT_SEARCH_PARAMS :=
       [("section", PStr "top"); ("limit", PStr "20")] |}.

Definition empty_world : World :=
  {| w_requests := []; w_slept := 0; w_files := ∅ |}.

Definition sample_tweet : pyval :=
  PDict [("tweet_id", PStr "1"); ("tweet_text", PStr "hi");
         ("favorite_count", PStr "3")].

Definition sample_record : dict :=
  [ ("id", PStr "1"); ("text", PStr "hi"); ("timestamp", PNone);
    ("favorite_count", PInt 3); ("retweet_count", PInt 0);
    ("reply_count", PInt 0); ("quote_count", PInt 0);
    ("views", PInt 0); ("user_followers", PInt 0);
    ("user_name", PStr ""); ("user_username", PStr "") ].

Definition page_with_token : outcome :=
  Response 200 ""
    (Some (PDict [("results", PList [sample_tweet]);
                  ("continuation_token", PStr "next")])).

Definition last_page : outcome :=
  Response 200 "" (Some (PDict [("results", PList [sample_tweet])])).

Definition page_without_results : outcome :=
  Response 200 "" (Some (PDict [("results", PList [])])).

(** The same raw tweet on the first and on the second page. *)
Definition upstream_repeating (n : nat) : outcome :=
  if n =? 0 then page_with_token else last_page.

(** Every response has results and a token. *)
Definition upstream_endless (n : nat) : outcome := page_with_token.

(** The first continuation request times out. *)
Definition upstream_failing (n : nat) : outcome :=
  if n =? 0 then page_with_token else Raised "timed out".

Definition upstream_empty (n : nat) : outcome := page_without_results.

Definition no_ties (count total : nat) : bool := false.

Definition sample_clock (w : World) : string := "2024-01-01_00-00-00".

Definition sample_str_exn (e : exn) : string := "error".

Definition sample_clean (df : DataFrame) (query : pyval) (w : World)
  : result DataFrame * World := (Ok df, w).

Definition sample_analyze (df : DataFrame) (w : World)
  : result pyval * World := (Ok (PDict []), w).

Definition frame_of_languages (langs : list string) : DataFrame :=
  pd_DataFrame
    ((fun lang => [("id", PStr lang); ("text", PStr "hi");
                   ("original_lang", PStr lang)]) <$> langs).

(** Six tweets, six languages. *)
Definition six_languages : DataFrame :=
  frame_of_languages ["en"; "hi"; "fr"; "de"; "es"; "it"].

Definition two_languages : DataFrame :=
  frame_of_languages ["en"; "hi"; "en"].

(** Columns but no row. *)
Definition frame_without_rows : DataFrame :=
  {| df_len := 0; df_data := [("id", []); ("original_lang", [])] |}.

(** ** Vocabulary of the further properties *)

(** The continuation token a response carries ([None] when it has none). *)
Definition response_token (o : outcome) : pyval :=
  match o with
  | Response _ _ (Some data) =>
      match py_get data "continuation_token" PNone with
      | Ok token => token
      | Err _ => PNone
      end
  | _ => PNone
  end.

(** A response with status 200 and a non-empty list of results. *)
Definition carries_results (o : outcome) : bool :=
  match o with
  | Response status_code _ (Some (PDict data)) =>
      (status_code =? 200)%Z
      && match dict_get data "results" with
         | Some (PList (_ :: _)) => true
         | _ => false
         end
  | _ => false
  end.

(** A response with status 200 and no result: the key is absent or holds
    the empty list. *)
Definition without_results (o : outcome) : bool :=
  match o with
  | Response status_code _ (Some (PDict data)) =>
      (status_code =? 200)%Z
      && match dict_get data "results" with
         | None | Some (PList []) => true
         | _ => false
         end
  | _ => false
  end.

Definition is_int (v : pyval) : bool :=
  match v with
  | PInt _ => true
  | _ => false
  end.

Definition api_headers (config : TwitterConfig) : list (string * string) :=
  [("x-rapidapi-key", API_KEY config); ("x-rapidapi-host", API_HOST config)].

Definition search_params (config : TwitterConfig) (query : pyval) : dict :=
  dict_set (DEFAULT_SEARCH_PARAMS config) "query" query.

(** The initial request and a continuation request of [fetch_tweets]. *)
Definition first_request (config : TwitterConfig) (query : pyval) : request :=
  {| req_url := SEARCH_URL config;
     req_headers := api_headers config;
     req_params := search_params config query |}.

Definition continuation_request (config : TwitterConfig) (query : pyval)
    (token : pyval) : request :=
  {| req_url := SEARCH_URL config +:+ "/continuation";
     req_headers := api_headers config;
     req_params :=
       dict_set (search_params config query) "continuation_token" token |}.

(** The raw results of the [k] responses from the [n]-th on. *)
Definition raw_results (upstream : nat -> outcome) (n k : nat) : list pyval :=
  concat (page_results <$> (upstream <$> seq n k)).

(** The request a pass of the loop makes. *)
Definition loop_request (config : TwitterConfig)
    (hd : list (string * string)) (ps : dict) (tok : pyval) : request :=
  {| req_url := SEARCH_URL config +:+ "/continuation";
     req_headers := hd;
     req_params := dict_set ps "continuation_token" tok |}.

(** The token the [i]-th pass of the loop sends: the one the loop was
    entered with, then the one of the response before. *)
Definition sent_token (upstream : nat -> outcome) (tok : pyval) (n i : nat)
  : pyval :=
  match i with
  | 0 => tok
  | S i' => response_token (upstream (n + i'))
  end.

(** The keys of a tweet prepared for the frontend. *)
Definition prepared_keys : list string :=
  ["id"; "text"; "cleaned_text"; "favorite_count"; "retweet_count";
   "reply_count"; "sentiment"; "sentiment_score"; "original_lang";
   "has_translation"].

(** The language [prepare_tweet_data] reads for row [i]: the cell of the
    [original_lang] column, ["en"] when the frame has no such column. *)
Definition row_language (df : DataFrame) (i : nat) : pyval :=
  match column_get (df_data df) "original_lang" with
  | Some cells => default NaN (cells !! i)
  | None => PStr "en"
  end.

(** A character that the sanitised query may hold: no blank, no slash, no
    backslash. *)
Definition safe_char (c : ascii) : bool :=
  negb (Ascii.eqb c " ") && negb (Ascii.eqb c "/") && negb (Ascii.eqb c "\").


(** The cells of the language column (none when the frame has no such
    column), and the rows that have a language. *)
Definition language_cells (df : DataFrame) : list pyval :=
  default [] (column_get (df_data df) "original_lang").

Definition rows_with_language (df : DataFrame) : nat :=
  length (filter (fun v => isna v = false) (language_cells df)).

Definition sum_stat_counts (stats : list LanguageStat) : nat :=
  foldr (fun s total => count s + total) 0 stats.

Definition is_str (v : pyval) : bool :=
  match v with
  | PStr _ => true
  | _ => false
  end.

(** The request of [fetch_trends]. *)
Definition trends_request (config : TwitterConfig) (TRENDS_URL : string)
    (woeid : pyval) : request :=
  {| req_url := TRENDS_URL;
     req_headers := api_headers config;
     req_params := [("woeid", woeid)] |}.





(** The ids that a response of [GET /api/translations] lists. *)
Definition listed_translations (r : response) : list pyval :=
  match body r with
  | PDict d =>
      match dict_get d "translations" with
      | Some (PList ids) => ids
      | _ => []
      end
  | _ => []
  end.

(** Two file systems with the same files below [server/]. *)
Definition same_server_files (fs fs' : gmap string file) : Prop :=
  forall rest, fs' !! ("server/" +:+ rest) = fs !! ("server/" +:+ rest).

Definition upstream_unavailable (n : nat) : outcome :=
  Response 503 "Service Unavailable" None.

(** A page with a token, then a page without results. *)
Definition upstream_runs_dry (n : nat) : outcome :=
  if n =? 0 then page_with_token else page_without_results.

(** The initial request times out. *)
Definition upstream_down (n : nat) : outcome := Raised "timed out".

(** What a call returned, [d] when it raised. *)
Definition returned {A : Type} (d : A) (r : result A) : A :=
  match r with
  | Ok x => x
  | Err _ => d
  end.


Definition sample_search_body : dict := [("searchQuery", PStr "rocq prover")].



Definition upstream_no_trends (n : nat) : outcome :=
  Response 200 "" (Some (PList [])).

Definition sample_trends_url : string :=
  "https://twitter154.p.rapidapi.com/trends/".


(** * Properties *)

(** ** Normalisation of one raw record *)

Lemma bind_Ok {A B} (m : result A) (f : A -> result B) (b : B) :
  m ≫= f = Ok b -> exists a, m = Ok a /\ f a = Ok b.
Proof. destruct m as [a|e]; simpl; [eauto | discriminate]. Qed.

Lemma bind_Err {A B} (m : result A) (f : A -> result B) (e : exn) :
  m = Err e -> m ≫= f = Err e.
Proof. intros ->. reflexivity. Qed.

(** Membership in a list that is written out. *)
Ltac in_list :=
  repeat first [apply list_elem_of_here | apply list_elem_of_further].

(** On a dict the reads cannot fail: what is left are the four integer
    conversions and the three reads of the user. *)
Lemma process_tweet_dict (d : dict) :
  _process_tweet_data (PDict d) =
    (favorite_count ←
       py_int (default (PInt 0) (dict_get d "favorite_count"));
     retweet_count ← py_int (default (PInt 0) (dict_get d "retweet_count"));
     reply_count ← py_int (default (PInt 0) (dict_get d "reply_count"));
     quote_count ← py_int (default (PInt 0) (dict_get d "quote_count"));
     user_followers ←
       py_get (default (PDict []) (dict_get d "user")) "follower_count"
         (PInt 0);
     user_name ←
       py_get (default (PDict []) (dict_get d "user")) "name" (PStr "");
     user_username ←
       py_get (default (PDict []) (dict_get d "user")) "username" (PStr "");
     Ok [ ("id", default PNone (dict_get d "tweet_id"));
          ("text",
            default (default (PStr "") (dict_get d "text"))
              (dict_get d "tweet_text"));
          ("timestamp", default PNone (dict_get d "creation_date"));
          ("favorite_count", PInt favorite_count);
          ("retweet_count", PInt retweet_count);
          ("reply_count", PInt reply_count);
          ("quote_count", PInt quote_count);
          ("views", default (PInt 0) (dict_get d "views"));
          ("user_followers", user_followers);
          ("user_name", user_name);
          ("user_username", user_username) ]).
Proof. reflexivity. Qed.

Lemma process_tweet_not_dict (tweet : pyval) :
  (forall d, tweet <> PDict d) ->
  _process_tweet_data tweet = Err AttributeError.
Proof. intros H. destruct tweet; try reflexivity. destruct (H d eq_refl). Qed.

(** A successful normalisation, read backwards. *)
Lemma process_tweet_Ok (tweet : pyval) (r : dict) :
  _process_tweet_data tweet = Ok r ->
  exists d fc rc pc qc uf un uu,
    tweet = PDict d
    /\ py_int (default (PInt 0) (dict_get d "favorite_count")) = Ok fc
    /\ py_int (default (PInt 0) (dict_get d "retweet_count")) = Ok rc
    /\ py_int (default (PInt 0) (dict_get d "reply_count")) = Ok pc
    /\ py_int (default (PInt 0) (dict_get d "quote_count")) = Ok qc
    /\ py_get (default (PDict []) (dict_get d "user")) "follower_count"
         (PInt 0) = Ok uf
    /\ py_get (default (PDict []) (dict_get d "user")) "name" (PStr "")
       = Ok un
    /\ py_get (default (PDict []) (dict_get d "user")) "username" (PStr "")
       = Ok uu
    /\ r = [ ("id", default PNone (dict_get d "tweet_id"));
             ("text",
               default (default (PStr "") (dict_get d "text"))
                 (dict_get d "tweet_text"));
             ("timestamp", default PNone (dict_get d "creation_date"));
             ("favorite_count", PInt fc);
             ("retweet_count", PInt rc);
             ("reply_count", PInt pc);
             ("quote_count", PInt qc);
             ("views", default (PInt 0) (dict_get d "views"));
             ("user_followers", uf);
             ("user_name", un);
             ("user_username", uu) ].
Proof.
  intros H.
  destruct tweet as [| | | | | |d]; try discriminate H.
  rewrite process_tweet_dict in H.
  apply bind_Ok in H as (fc & Hfc & H).
  apply bind_Ok in H as (rc & Hrc & H).
  apply bind_Ok in H as (pc & Hpc & H).
  apply bind_Ok in H as (qc & Hqc & H).
  apply bind_Ok in H as (uf & Huf & H).
  apply bind_Ok in H as (un & Hun & H).
  apply bind_Ok in H as (uu & Huu & H).
  injection H as <-.
  exists d, fc, rc, pc, qc, uf, un, uu. repeat split; assumption.
Qed.

Lemma process_tweet_keys (tweet : pyval) (r : dict) :
  _process_tweet_data tweet = Ok r -> r.*1 = record_keys.
Proof.
  intros H. apply process_tweet_Ok in H
    as (d & fc & rc & pc & qc & uf & un & uu
        & _ & _ & _ & _ & _ & _ & _ & _ & ->).
  reflexivity.
Qed.

(** The value stored under a count field is the conversion of the raw
    value, or of the default 0 when the key is absent. *)
Lemma process_tweet_count (d r : dict) (c : string) :
  c ∈ count_fields ->
  _process_tweet_data (PDict d) = Ok r ->
  exists n, py_int (default (PInt 0) (dict_get d c)) = Ok n
            /\ dict_get r c = Some (PInt n).
Proof.
  intros Hc H. apply process_tweet_Ok in H
    as (d' & fc & rc & pc & qc & uf & un & uu
        & Hd & Hfc & Hrc & Hpc & Hqc & _ & _ & _ & ->).
  injection Hd as <-.
  unfold count_fields in Hc.
  repeat (apply elem_of_cons in Hc as [-> | Hc]); [ | | | | inversion Hc];
    eexists; (split; [eassumption | reflexivity]).
Qed.

(** A count key whose value [int] rejects makes the normalisation raise. *)
Lemma process_tweet_count_raises (d : dict) (c : string) (v : pyval) (e : exn) :
  c ∈ count_fields ->
  dict_get d c = Some v ->
  py_int v = Err e ->
  exists e', _process_tweet_data (PDict d) = Err e'.
Proof.
  intros Hc Hv He.
  destruct (_process_tweet_data (PDict d)) as [r|e'] eqn:H; [ | eauto].
  destruct (process_tweet_count d r c Hc H) as (n & Hn & _).
  rewrite Hv in Hn. simpl in Hn. congruence.
Qed.

Lemma process_tweet_user (d r : dict) (k field : string) (dflt : pyval) :
  (k, field, dflt) ∈ [ ("name", "user_name", PStr "");
                       ("username", "user_username", PStr "") ] ->
  _process_tweet_data (PDict d) = Ok r ->
  user_entry d k = Some None ->
  dict_get r field = Some dflt.
Proof.
  intros Hk H Hu. apply process_tweet_Ok in H
    as (d' & fc & rc & pc & qc & uf & un & uu
        & Hd & _ & _ & _ & _ & _ & Hun & Huu & ->).
  injection Hd as <-.
  unfold user_entry in Hu.
  repeat (apply elem_of_cons in Hk as [Hk | Hk]); [ | | inversion Hk];
    injection Hk as -> -> ->;
    destruct (dict_get d "user") as [[]|]; simpl in *; try discriminate;
    try (injection Hu as Hu; rewrite Hu in * ); simpl in *; congruence.
Qed.

(** C6: the example record normalises as the specification gives it; in
    general a count field absent from the raw record becomes 0 and an
    absent name or username becomes the empty string; a raw record that
    has none of the count keys and no user always normalises. *)
Theorem process_tweet_defaulting :
  _process_tweet_data
    (PDict [("tweet_id", PStr "1"); ("tweet_text", PStr "hi");
            ("favorite_count", PStr "3")])
  = Ok [ ("id", PStr "1"); ("text", PStr "hi"); ("timestamp", PNone);
         ("favorite_count", PInt 3); ("retweet_count", PInt 0);
         ("reply_count", PInt 0); ("quote_count", PInt 0);
         ("views", PInt 0); ("user_followers", PInt 0);
         ("user_name", PStr ""); ("user_username", PStr "") ]
  /\ (forall (d r : dict) (c : string),
        _process_tweet_data (PDict d) = Ok r ->
        c ∈ count_fields ->
        dict_get d c = None ->
        dict_get r c = Some (PInt 0))
  /\ (forall d r : dict,
        _process_tweet_data (PDict d) = Ok r ->
        (user_entry d "name" = Some None ->
         dict_get r "user_name" = Some (PStr ""))
        /\ (user_entry d "username" = Some None ->
            dict_get r "user_username" = Some (PStr "")))
  /\ (forall d : dict,
        (forall c, c ∈ count_fields -> dict_get d c = None) ->
        dict_get d "user" = None ->
        exists r, _process_tweet_data (PDict d) = Ok r).
Proof.
  split; [reflexivity | ].
  split; [ | split].
  - intros d r c H Hc Hnone.
    destruct (process_tweet_count d r c Hc H) as (n & Hn & Hr).
    rewrite Hnone in Hn. simpl in Hn. congruence.
  - intros d r H. split; intros Hu.
    + apply (process_tweet_user d r "name" "user_name" (PStr "")); auto.
      in_list.
    + apply (process_tweet_user d r "username" "user_username" (PStr ""));
        auto.
      in_list.
  - intros d Hc Hu. rewrite process_tweet_dict.
    rewrite (Hc "favorite_count"), (Hc "retweet_count"),
      (Hc "reply_count"), (Hc "quote_count"), Hu
      by (unfold count_fields; in_list).
    simpl. eauto.
Qed.

(** C10: the default 0 is used only for an absent key.  A present count
    key is converted with [int], whatever its value: when the conversion
    succeeds the field holds its result, when it fails the normalisation
    raises, as it does on a null or a non-numeric [favorite_count]. *)
Theorem process_tweet_present_count_not_defaulted :
  (forall (d r : dict) (c : string) (v : pyval),
     c ∈ count_fields ->
     dict_get d c = Some v ->
     _process_tweet_data (PDict d) = Ok r ->
     exists n, py_int v = Ok n /\ dict_get r c = Some (PInt n))
  /\ (forall (d : dict) (c : string) (v : pyval) (e : exn),
        c ∈ count_fields ->
        dict_get d c = Some v ->
        py_int v = Err e ->
        exists e', _process_tweet_data (PDict d) = Err e')
  /\ _process_tweet_data (PDict [("favorite_count", PNone)]) = Err TypeError
  /\ _process_tweet_data (PDict [("favorite_count", PStr "abc")])
     = Err ValueError.
Proof.
  split; [ | split; [ | split; reflexivity]].
  - intros d r c v Hc Hv H.
    destruct (process_tweet_count d r c Hc H) as (n & Hn & Hr).
    rewrite Hv in Hn. eauto.
  - apply process_tweet_count_raises.
Qed.

(** ** The paginated fetch *)

Lemma mapM_result_app {A B} (f : A -> result B) (l1 l2 : list A)
    (r1 r2 : list B) :
  mapM_result f l1 = Ok r1 -> mapM_result f l2 = Ok r2 ->
  mapM_result f (l1 ++ l2) = Ok (r1 ++ r2).
Proof.
  revert r1. induction l1 as [|x l1 IH]; intros r1 H1 H2; simpl in *.
  - injection H1 as <-. exact H2.
  - apply bind_Ok in H1 as (y & Hy & H1).
    apply bind_Ok in H1 as (ys & Hys & H1). injection H1 as <-.
    rewrite Hy. simpl. rewrite (IH ys Hys H2). reflexivity.
Qed.

Lemma mapM_result_length {A B} (f : A -> result B) (l : list A) (r : list B) :
  mapM_result f l = Ok r -> length r = length l.
Proof.
  revert r. induction l as [|x l IH]; intros r H; simpl in *.
  - injection H as <-. reflexivity.
  - apply bind_Ok in H as (y & Hy & H).
    apply bind_Ok in H as (ys & Hys & H). injection H as <-.
    simpl. f_equal. auto.
Qed.

Lemma mapM_result_Forall {A B} (f : A -> result B) (P : B -> Prop)
    (l : list A) (r : list B) :
  (forall x y, f x = Ok y -> P y) ->
  mapM_result f l = Ok r -> Forall P r.
Proof.
  intros HP. revert r. induction l as [|x l IH]; intros r H; simpl in *.
  - injection H as <-. constructor.
  - apply bind_Ok in H as (y & Hy & H).
    apply bind_Ok in H as (ys & Hys & H). injection H as <-.
    constructor; eauto.
Qed.

Lemma mapM_result_total {A B} (f : A -> result B) (l : list A) :
  forallb (fun x => match f x with Ok _ => true | Err _ => false end) l
  = true ->
  exists r, mapM_result f l = Ok r.
Proof.
  induction l as [|x l IH]; simpl; intros H.
  - eauto.
  - apply andb_prop in H as [Hx Hl].
    destruct (f x) as [y|] eqn:Hy; [ | discriminate].
    destruct (IH Hl) as (ys & Hys). rewrite Hys. simpl. eauto.
Qed.


(** *** Column labels of a frame built from normalised records *)

Lemma first_seen_elem (l : list string) (x : string) :
  x ∈ first_seen l -> x ∈ l.
Proof.
  induction l as [|y l IH]; simpl; [auto | ].
  intros [-> | H]%elem_of_cons; [left | ].
  right. apply list_elem_of_filter in H as [_ H]. auto.
Qed.

Lemma filter_all {A} (P : A -> Prop) `{forall x, Decision (P x)} (l : list A) :
  (forall x, x ∈ l -> P x) -> filter P l = l.
Proof.
  induction l as [|y l IH]; intros HP; [reflexivity | ].
  rewrite filter_cons_True by (apply HP; left).
  f_equal. apply IH. intros x Hx. apply HP. right. exact Hx.
Qed.

Lemma filter_none {A} (P : A -> Prop) `{forall x, Decision (P x)} (l : list A) :
  (forall x, x ∈ l -> ~ P x) -> filter P l = [].
Proof.
  induction l as [|y l IH]; intros HP; [reflexivity | ].
  rewrite filter_cons_False by (apply HP; left).
  apply IH. intros x Hx. apply HP. right. exact Hx.
Qed.

Lemma filter_not_elem_cons (x : string) (l m : list string) :
  filter (fun y => y ≠ x) (filter (fun y => y ∉ l) m)
  = filter (fun y => y ∉ x :: l) m.
Proof.
  induction m as [|a m IH]; [reflexivity | ].
  rewrite (filter_cons (fun y => y ∉ l)),
    (filter_cons (fun y => y ∉ x :: l)).
  destruct (decide (a ∉ l)) as [Hl|Hl], (decide (a ∉ x :: l)) as [Hxl|Hxl].
  - rewrite filter_cons_True, IH; [reflexivity | ].
    intros ->. apply Hxl. left.
  - rewrite filter_cons_False, IH; [reflexivity | ].
    intros Hne. apply Hxl. intros [-> | Ha]%elem_of_cons; contradiction.
  - exfalso. apply Hl. intros Ha. apply Hxl. right. exact Ha.
  - exact IH.
Qed.

Lemma first_seen_app (l r : list string) :
  first_seen (l ++ r)
  = first_seen l ++ filter (fun y => y ∉ l) (first_seen r).
Proof.
  induction l as [|x l IH]; simpl.
  - symmetry. apply filter_all. intros y _ Hy. inversion Hy.
  - f_equal. rewrite IH, filter_app. f_equal.
    apply filter_not_elem_cons.
Qed.

Lemma first_seen_NoDup (l : list string) : NoDup l -> first_seen l = l.
Proof.
  induction 1 as [|x l Hx Hl IH]; simpl; [reflexivity | ].
  rewrite IH. f_equal. apply filter_all. intros y Hy ->. contradiction.
Qed.

Lemma normalised_columns (recs : list dict) :
  recs <> [] ->
  Forall (fun r : dict => r.*1 = record_keys) recs ->
  first_seen (concat ((fun r : dict => r.*1) <$> recs)) = record_keys.
Proof.
  intros Hne Hall. destruct recs as [|r recs]; [contradiction | ].
  apply Forall_cons in Hall as [Hr Hall]. simpl.
  rewrite Hr, first_seen_app.
  rewrite (first_seen_NoDup record_keys)
    by (apply (bool_decide_unpack _); vm_compute; exact I).
  rewrite filter_none; [apply app_nil_r | ].
  intros y Hy Hny. apply Hny. apply first_seen_elem in Hy.
  apply list_elem_of_In, in_concat in Hy as (ks & Hks & Hy).
  apply list_elem_of_In in Hks, Hy.
  apply list_elem_of_fmap in Hks as (r' & -> & Hr').
  rewrite Forall_forall in Hall. rewrite (Hall r' Hr') in Hy. exact Hy.
Qed.


(** *** Which exceptions the fetch can raise *)

Lemma bind_Err_inv {A B} (m : result A) (f : A -> result B) (e : exn) :
  m ≫= f = Err e -> m = Err e \/ exists a, m = Ok a /\ f a = Err e.
Proof. destruct m as [a|e']; simpl; [eauto | left; congruence]. Qed.

Lemma py_get_library_error v k dflt e :
  py_get v k dflt = Err e -> library_error e.
Proof. destruct v; simpl; intros [= <-]; exact I. Qed.

Lemma py_int_library_error v e : py_int v = Err e -> library_error e.
Proof.
  destruct v as [| | |f|s| |]; simpl; try (intros [= <-]; exact I).
  - destruct f; simpl; intros [= <-]; exact I.
  - unfold int_of_string.
    destruct (match strip (String.list_ascii_of_string s) with
              | [] => _ | _ => _ end); intros [= <-]; exact I.
Qed.

Lemma py_len_library_error v e : py_len v = Err e -> library_error e.
Proof. destruct v; simpl; intros [= <-]; exact I. Qed.

Lemma py_iter_library_error v e : py_iter v = Err e -> library_error e.
Proof. destruct v; simpl; intros [= <-]; exact I. Qed.

Lemma py_keys_library_error v e : py_keys v = Err e -> library_error e.
Proof. destruct v; simpl; intros [= <-]; exact I. Qed.

Lemma response_json_library_error j e :
  response_json j = Err e -> library_error e.
Proof. destruct j; simpl; intros [= <-]; exact I. Qed.

Lemma mapM_result_library_error {A B} (f : A -> result B) (l : list A) e :
  (forall x e, f x = Err e -> library_error e) ->
  mapM_result f l = Err e -> library_error e.
Proof.
  intros Hf. induction l as [|x l IH]; simpl; [discriminate | ].
  intros [H | (y & _ & H)]%bind_Err_inv; [eauto | ].
  apply bind_Err_inv in H as [H | (ys & _ & H)]; [auto | discriminate].
Qed.

Create HintDb pyerr.
#[local] Hint Resolve py_get_library_error py_int_library_error
  py_len_library_error py_iter_library_error py_keys_library_error
  response_json_library_error : pyerr.

(** Walks down a failed chain of binds to the step that raised. *)
Ltac raised_step H :=
  repeat
    (let a := fresh "a" in
     apply bind_Err_inv in H as [H | (a & _ & H)];
     [solve [eauto with pyerr] | ]).

Lemma process_tweet_library_error tweet e :
  _process_tweet_data tweet = Err e -> library_error e.
Proof.
  destruct tweet as [| | | | | |d]; try (intros [= <-]; exact I).
  rewrite process_tweet_dict. intros H.
  raised_step H. discriminate H.
Qed.

Lemma initial_response_error o e :
  initial_response o = Err e -> e <> no_tweets_found.
Proof.
  destruct o as [msg|status_code text json]; simpl.
  - intros [= <-]. discriminate.
  - destruct (negb (status_code =? 200)%Z).
    + intros [= <-] [= Hmsg].
    + intros H. cut (library_error e).
      { intros He ->. exact He. }
      apply bind_Err_inv in H as [H | (data & _ & H)]; [eauto with pyerr | ].
      apply bind_Err_inv in H as [H | (ks & _ & H)]; [eauto with pyerr | ].
      apply bind_Err_inv in H as [H | (n & _ & H)].
      { apply bind_Err_inv in H as [H | (v & _ & H)]; eauto with pyerr. }
      apply bind_Err_inv in H as [H | (tw & _ & H)]; [eauto with pyerr | ].
      apply bind_Err_inv in H as [H | (items & _ & H)]; [eauto with pyerr | ].
      apply bind_Err_inv in H as [H | (recs & _ & H)].
      { eapply mapM_result_library_error; [ | exact H].
        apply process_tweet_library_error. }
      apply bind_Err_inv in H as [H | (tok & _ & H)]; [eauto with pyerr | ].
      discriminate H.
Qed.

(** *** What an accepted response contributes *)

Lemma response_json_Ok j v : response_json j = Ok v -> j = Some v.
Proof. destruct j; simpl; congruence. Qed.

Lemma initial_response_Ok o recs tok :
  initial_response o = Ok (recs, tok) ->
  mapM_result _process_tweet_data (page_results o) = Ok recs.
Proof.
  destruct o as [msg|status_code text json]; simpl; [discriminate | ].
  destruct (negb (status_code =? 200)%Z); [discriminate | ].
  intros H.
  apply bind_Ok in H as (data & Hdata & H).
  apply bind_Ok in H as (ks & _ & H).
  apply bind_Ok in H as (n & _ & H).
  apply bind_Ok in H as (tw & Htw & H).
  apply bind_Ok in H as (items & Hitems & H).
  apply bind_Ok in H as (processed & Hrecs & H).
  apply bind_Ok in H as (tok' & _ & H).
  injection H as <- <-.
  apply response_json_Ok in Hdata as ->.
  rewrite Htw. simpl. rewrite Hitems. exact Hrecs.
Qed.

Lemma continuation_response_Continue o new tok :
  continuation_response o = Ok (Continue new tok) ->
  mapM_result _process_tweet_data (page_results o) = Ok new.
Proof.
  destruct o as [msg|status_code text json]; simpl; [discriminate | ].
  destruct (negb (status_code =? 200)%Z); [discriminate | ].
  intros H.
  apply bind_Ok in H as (data & Hdata & H).
  apply bind_Ok in H as (ks & _ & H).
  apply bind_Ok in H as (n & _ & H).
  apply bind_Ok in H as (tw & Htw & H).
  destruct (negb (truthy tw)); [discriminate | ].
  apply bind_Ok in H as (items & Hitems & H).
  apply bind_Ok in H as (processed & Hrecs & H).
  apply bind_Ok in H as (tok' & _ & H).
  injection H as <- <-.
  apply response_json_Ok in Hdata as ->.
  rewrite Htw. simpl. rewrite Hitems. exact Hrecs.
Qed.

Lemma continuation_failed_no_Continue o :
  continuation_failed o = true ->
  forall new tok, continuation_response o <> Ok (Continue new tok).
Proof.
  destruct o as [msg|status_code text json]; [discriminate | ].
  unfold continuation_failed.
  intros [Hs | Hr]%orb_prop new tok.
  - simpl. rewrite Hs. discriminate.
  - destruct (continuation_response (Response status_code text json));
      [discriminate | discriminate].
Qed.

(** *** The loop *)

Section FetchProperties.
Variable config : TwitterConfig.
Variable upstream : nat -> outcome.


(** One more request than before. *)
Lemma requests_get_log url hd ps w :
  requests_get upstream url hd ps w
  = (upstream (length (w_requests w)),
     log_request {| req_url := url; req_headers := hd; req_params := ps |} w).
Proof. reflexivity. Qed.

(** The guard [page < max_pages] ends the loop, not the fuel. *)
Lemma continuation_loop_fuel f1 f2 hd ps page tok acc w :
  max_pages - page <= f1 -> max_pages - page <= f2 ->
  continuation_loop config upstream f1 hd ps page tok acc w
  = continuation_loop config upstream f2 hd ps page tok acc w.
Proof.
  revert f2 page tok acc w.
  induction f1 as [|f1 IH]; intros [|f2] page tok acc w H1 H2; simpl;
    try reflexivity.
  - replace (page <? max_pages) with false
      by (symmetry; apply Nat.ltb_ge; lia).
    rewrite andb_false_r. reflexivity.
  - replace (page <? max_pages) with false
      by (symmetry; apply Nat.ltb_ge; lia).
    rewrite andb_false_r. reflexivity.
  - destruct (truthy tok && (page <? max_pages)) eqn:G; [ | reflexivity].
    apply andb_prop in G as [_ G]. apply Nat.ltb_lt in G.
    destruct (continuation_response _) as [[|new tok']|]; try reflexivity.
    apply IH; lia.
Qed.

(** A failing continuation request ends the loop at once: the records
    collected so far come back unchanged and no further request is
    made. *)
Lemma continuation_loop_failure fuel hd ps page tok acc w :
  truthy tok = true -> page < max_pages ->
  continuation_failed (upstream (length (w_requests w))) = true ->
  continuation_loop config upstream (S fuel) hd ps page tok acc w
  = (acc,
     log_request
       {| req_url := SEARCH_URL config +:+ "/continuation";
          req_headers := hd;
          req_params := dict_set ps "continuation_token" tok |}
       (time_sleep 1 w)).
Proof.
  intros Htok Hpage Hfail. simpl.
  rewrite Htok. apply Nat.ltb_lt in Hpage. rewrite Hpage. simpl.
  pose proof (continuation_failed_no_Continue _ Hfail) as Hno.
  destruct (continuation_response _) as [[|new tok']|]; try reflexivity.
  destruct (Hno new tok' eq_refl).
Qed.

(** What the loop adds: the normalised results of the next [k]
    responses, for some [k] that the page cap bounds, at the price of at
    most [max_pages - page] requests; files are not touched. *)
Lemma continuation_loop_spec fuel hd ps page tok acc w acc' w' :
  continuation_loop config upstream fuel hd ps page tok acc w = (acc', w') ->
  length (w_requests w) <= length (w_requests w')
  /\ length (w_requests w') <= length (w_requests w) + (max_pages - page)
  /\ w_files w' = w_files w
  /\ exists k recs,
       k <= max_pages - page
       /\ length (w_requests w) + k <= length (w_requests w')
       /\ mapM_result _process_tweet_data
            (concat (page_results <$>
                       (upstream <$> seq (length (w_requests w)) k)))
          = Ok recs
       /\ acc' = acc ++ recs.
Proof.
  revert page tok acc w.
  induction fuel as [|fuel IH]; intros page tok acc w H; simpl in H.
  - injection H as <- <-. repeat split; try lia.
    exists 0, []. rewrite app_nil_r. simpl. repeat split; lia.
  - destruct (truthy tok && (page <? max_pages)) eqn:G.
    + apply andb_prop in G as [_ G]. apply Nat.ltb_lt in G.
      destruct (continuation_response _) as [[|new tok']|] eqn:Hresp.
      * injection H as <- <-. simpl. rewrite length_app. simpl.
        repeat split; try lia.
        exists 0, []. rewrite app_nil_r. simpl. repeat split; lia.
      * apply IH in H
          as (Hge & Hle & Hfiles & k & recs & Hk & Hkle & Hrecs & ->).
        simpl in *. rewrite length_app in *. simpl in *.
        repeat split; try lia; [exact Hfiles | ].
        exists (S k), (new ++ recs). split; [lia | split; [lia | split]].
        -- simpl. apply mapM_result_app.
           ++ eapply continuation_response_Continue. exact Hresp.
           ++ replace (S (length (w_requests w)))
                with (length (w_requests w) + 1) by lia.
              exact Hrecs.
        -- rewrite app_assoc. reflexivity.
      * injection H as <- <-. simpl. rewrite length_app. simpl.
        repeat split; try lia.
        exists 0, []. rewrite app_nil_r. simpl. repeat split; lia.
    + injection H as <- <-. repeat split; try lia.
      exists 0, []. rewrite app_nil_r. simpl. repeat split; lia.
Qed.

(** A response that goes on is accepted as an initial page and as a
    continuation page alike. *)
Lemma carried_response o :
  carries_token_and_results o = true ->
  results_normalise o = true ->
  exists recs tok,
    mapM_result _process_tweet_data (page_results o) = Ok recs
    /\ recs <> []
    /\ truthy tok = true
    /\ initial_response o = Ok (recs, tok)
    /\ continuation_response o = Ok (Continue recs tok).
Proof.
  intros Hcarry Hnorm.
  destruct o as [msg|status_code text [[| | | | | |data]|]]; try discriminate.
  unfold carries_token_and_results in Hcarry.
  apply andb_prop in Hcarry as [Hs Hcarry].
  destruct (dict_get data "results") as [[| | | | |[|t results]|]|] eqn:Hres;
    try discriminate.
  destruct (dict_get data "continuation_token") as [tok|] eqn:Htok;
    try discriminate.
  unfold results_normalise in Hnorm.
  assert (Hpage : page_results (Response status_code text (Some (PDict data)))
                  = t :: results).
  { simpl. rewrite Hres. reflexivity. }
  rewrite Hpage in Hnorm |- *.
  apply mapM_result_total in Hnorm as (recs & Hrecs).
  exists recs, tok. split; [exact Hrecs | ].
  split.
  { intros ->. apply mapM_result_length in Hrecs. discriminate. }
  split; [exact Hcarry | ].
  unfold initial_response, continuation_response.
  rewrite Hs. simpl. rewrite Hres. simpl.
  simpl in Hrecs. rewrite Hrecs. simpl. rewrite Htok. simpl.
  split; reflexivity.
Qed.

(** When every response goes on, the loop runs to the cap. *)
Lemma continuation_loop_exact fuel hd ps page tok acc w :
  (forall n, carries_token_and_results (upstream n) = true) ->
  (forall n, results_normalise (upstream n) = true) ->
  truthy tok = true -> page <= max_pages -> max_pages - page <= fuel ->
  length
    (w_requests
       (continuation_loop config upstream fuel hd ps page tok acc w).2)
  = length (w_requests w) + (max_pages - page).
Proof.
  intros Hcarry Hnorm. revert page tok acc w.
  induction fuel as [|fuel IH]; intros page tok acc w Htok Hpage Hfuel;
    simpl.
  - lia.
  - rewrite Htok. simpl.
    destruct (page <? max_pages) eqn:G.
    + apply Nat.ltb_lt in G.
      destruct (carried_response _ (Hcarry (length (w_requests w)))
                  (Hnorm (length (w_requests w))))
        as (new & tok' & _ & _ & Htok' & _ & Hcont).
      rewrite Hcont, IH by (auto; lia).
      simpl. rewrite length_app. simpl. lia.
    + apply Nat.ltb_ge in G. simpl. lia.
Qed.

(** The loop when the next [j] responses go on and the one after fails. *)
Lemma continuation_loop_fails_at j : forall fuel hd ps page tok acc w,
  truthy tok = true -> page + j < max_pages -> j < fuel ->
  (forall i, i < j ->
     carries_token_and_results (upstream (length (w_requests w) + i)) = true
     /\ results_normalise (upstream (length (w_requests w) + i)) = true) ->
  continuation_failed (upstream (length (w_requests w) + j)) = true ->
  exists recs w',
    mapM_result _process_tweet_data
      (concat (page_results <$> (upstream <$> seq (length (w_requests w)) j)))
    = Ok recs
    /\ continuation_loop config upstream fuel hd ps page tok acc w
       = (acc ++ recs, w')
    /\ length (w_requests w') = length (w_requests w) + j + 1.
Proof.
  induction j as [|j IH]; intros fuel hd ps page tok acc w Htok Hpage Hfuel
    Hgood Hfail.
  - destruct fuel as [|fuel]; [lia | ].
    rewrite Nat.add_0_r in Hfail.
    rewrite continuation_loop_failure by (auto; lia).
    eexists [], _. rewrite app_nil_r.
    split; [reflexivity | split; [reflexivity | ]].
    simpl. rewrite length_app. simpl. lia.
  - destruct fuel as [|fuel]; [lia | ].
    destruct (Hgood 0 ltac:(lia)) as [Hc Hn]. rewrite Nat.add_0_r in Hc, Hn.
    destruct (carried_response _ Hc Hn)
      as (new & tok' & Hnew & _ & Htok' & _ & Hcont).
    simpl. rewrite Htok.
    replace (page <? max_pages) with true
      by (symmetry; apply Nat.ltb_lt; lia).
    simpl. rewrite Hcont.
    match goal with
    | |- context [continuation_loop _ _ fuel hd ps (page + 1) tok' _ ?w1] =>
        destruct (IH fuel hd ps (page + 1) tok' (acc ++ new) w1)
          as (recs & w' & Hrecs & Hloop & Hlen)
    end; try assumption; try lia.
    + intros i Hi. simpl. rewrite length_app. simpl.
      replace (length (w_requests w) + 1 + i)
        with (length (w_requests w) + S i) by lia.
      apply Hgood. lia.
    + simpl. rewrite length_app. simpl.
      replace (length (w_requests w) + 1 + j)
        with (length (w_requests w) + S j) by lia.
      exact Hfail.
    + simpl in Hrecs, Hlen. rewrite length_app in Hrecs, Hlen.
      simpl in Hrecs, Hlen.
      exists (new ++ recs), w'. split; [ | split].
      * simpl. apply mapM_result_app; [exact Hnew | ].
        replace (S (length (w_requests w)))
          with (length (w_requests w) + 1) by lia.
        exact Hrecs.
      * rewrite Hloop, app_assoc. reflexivity.
      * lia.
Qed.

(** *** The whole call *)

#[local] Arguments continuation_loop : simpl never.

(** [fetch_tweets] makes at least one and at most [max_pages] requests,
    whatever the upstream answers, and writes no file. *)
Lemma fetch_tweets_requests_bound q w :
  let w' := (fetch_tweets config upstream q w).2 in
  length (w_requests w) + 1 <= length (w_requests w')
  /\ length (w_requests w') <= length (w_requests w) + max_pages
  /\ w_files w' = w_files w.
Proof.
  unfold fetch_tweets, collect_tweets. simpl.
  destruct (initial_response _) as [[recs0 tok]|e]; simpl.
  - destruct (continuation_loop _ _ _ _ _ _ _ _ _) as [all w2] eqn:Hloop.
    apply continuation_loop_spec in Hloop as (Hge & Hle & Hfiles & _).
    simpl in *. rewrite length_app in *. simpl in *.
    destruct (bool_decide (all = [])); simpl; unfold max_pages in *;
      repeat split; try lia; exact Hfiles.
  - rewrite length_app. simpl. unfold max_pages. repeat split; lia.
Qed.

(** Exactly [max_pages] requests when every response goes on. *)
Lemma fetch_tweets_requests_exact q w :
  (forall n, carries_token_and_results (upstream n) = true) ->
  (forall n, results_normalise (upstream n) = true) ->
  requests_issued w (fetch_tweets config upstream q w).2 = max_pages.
Proof.
  intros Hcarry Hnorm. unfold requests_issued, fetch_tweets, collect_tweets.
  simpl.
  destruct (carried_response _ (Hcarry (length (w_requests w)))
              (Hnorm (length (w_requests w))))
    as (recs & tok & _ & _ & Htok & Hinit & _).
  rewrite Hinit.
  match goal with
  | |- context [continuation_loop _ _ ?f ?hd ?ps ?pg ?tk ?acc ?w1] =>
      pose proof (continuation_loop_exact f hd ps pg tk acc w1
                    Hcarry Hnorm Htok) as Hexact;
      destruct (continuation_loop config upstream f hd ps pg tk acc w1)
        as [all w2]
  end.
  simpl in Hexact. rewrite length_app in Hexact. simpl in Hexact.
  unfold max_pages in *.
  specialize (Hexact ltac:(lia) ltac:(lia)).
  destruct (bool_decide (all = [])); simpl; lia.
Qed.

(** C4: when every response carries a continuation token and non-empty
    results, [fetch_tweets] issues at most 5 requests, the initial one
    included. *)
Theorem fetch_tweets_page_cap q w :
  (forall n, carries_token_and_results (upstream n) = true) ->
  requests_issued w (fetch_tweets config upstream q w).2 <= 5.
Proof.
  intros _. unfold requests_issued.
  destruct (fetch_tweets_requests_bound q w) as (_ & Hle & _).
  unfold max_pages in Hle. lia.
Qed.

(** C5: [fetch_tweets] raises the "No tweets found" exception exactly when
    the requests went through and left no record collected. *)
Theorem fetch_tweets_empty_result q w :
  (fetch_tweets config upstream q w).1 = Err no_tweets_found
  <-> (collect_tweets config upstream q w).1 = Ok [].
Proof.
  unfold fetch_tweets.
  destruct (collect_tweets config upstream q w) as [[all|e] w'] eqn:Hcollect;
    simpl.
  - destruct all as [|r all]; simpl; split; try reflexivity; discriminate.
  - split; [ | discriminate]. intros [= ->]. exfalso.
    unfold collect_tweets in Hcollect. simpl in Hcollect.
    destruct (initial_response _) as [[recs0 tok]|e] eqn:Hinit.
    + destruct (continuation_loop config upstream _ _ _ _ _ _ _). discriminate.
    + injection Hcollect as -> _.
      exact (initial_response_error _ _ Hinit eq_refl).
Qed.

(** C3: once the initial request has yielded a record, [fetch_tweets]
    returns a frame and raises nothing, whatever the continuation requests
    do; and when the first [j] responses go on and the request after them
    fails, the frame holds the records of those [j] responses and the
    failed request is the last one made. *)
Theorem fetch_tweets_partial_success q w :
  (forall recs tok,
     initial_response (upstream (length (w_requests w))) = Ok (recs, tok) ->
     recs <> [] ->
     exists extra w',
       fetch_tweets config upstream q w
       = (Ok (pd_DataFrame (recs ++ extra)), w'))
  /\ (forall j,
        1 <= j < max_pages ->
        (forall i, i < j ->
           carries_token_and_results (upstream (length (w_requests w) + i))
           = true
           /\ results_normalise (upstream (length (w_requests w) + i))
              = true) ->
        continuation_failed (upstream (length (w_requests w) + j)) = true ->
        exists recs w',
          mapM_result _process_tweet_data
            (concat (page_results <$>
                       (upstream <$> seq (length (w_requests w)) j)))
          = Ok recs
          /\ fetch_tweets config upstream q w = (Ok (pd_DataFrame recs), w')
          /\ requests_issued w w' = j + 1).
Proof.
  split.
  - intros recs tok Hinit Hne.
    unfold fetch_tweets, collect_tweets. simpl. rewrite Hinit.
    destruct (continuation_loop _ _ _ _ _ _ _ _ _) as [all w2] eqn:Hloop.
    apply continuation_loop_spec in Hloop
      as (_ & _ & _ & k & extra & _ & _ & _ & ->).
    simpl. exists extra, w2.
    rewrite bool_decide_eq_false_2; [reflexivity | ].
    intros [-> _]%app_eq_nil. contradiction.
  - intros j [Hj1 Hj5] Hgood Hfail.
    destruct j as [|j]; [lia | ].
    destruct (Hgood 0 ltac:(lia)) as [Hc Hn]. rewrite Nat.add_0_r in Hc, Hn.
    destruct (carried_response _ Hc Hn)
      as (recs0 & tok & Hrecs0 & Hne & Htok & Hinit & _).
    unfold fetch_tweets, collect_tweets. simpl. rewrite Hinit.
    match goal with
    | |- context [continuation_loop _ _ ?f ?hd ?ps ?pg ?tk ?acc ?w1] =>
        destruct (continuation_loop_fails_at j f hd ps pg tk acc w1)
          as (recs & w' & Hrecs & Hloop & Hlen)
    end; try assumption; try (unfold max_pages in *; lia).
    + intros i Hi. simpl. rewrite length_app. simpl.
      replace (length (w_requests w) + 1 + i)
        with (length (w_requests w) + S i) by lia.
      apply Hgood. lia.
    + simpl. rewrite length_app. simpl.
      replace (length (w_requests w) + 1 + j)
        with (length (w_requests w) + S j) by lia.
      exact Hfail.
    + rewrite Hloop. simpl in Hrecs, Hlen |- *.
      rewrite length_app in Hrecs, Hlen. simpl in Hrecs, Hlen.
      exists (recs0 ++ recs), w'. split; [ | split].
      * apply mapM_result_app; [exact Hrecs0 | ].
        replace (S (length (w_requests w)))
          with (length (w_requests w) + 1) by lia.
        exact Hrecs.
      * rewrite bool_decide_eq_false_2; [reflexivity | ].
        intros [-> _]%app_eq_nil. contradiction.
      * unfold requests_issued. lia.
Qed.


End FetchProperties.

(** ** Language statistics *)

Lemma column_get_elem cols c cells :
  column_get cols c = Some cells -> (c, cells) ∈ cols.
Proof.
  induction cols as [|[c' cells'] cols IH]; simpl; [discriminate | ].
  destruct (String.eqb c' c) eqn:E.
  - apply String.eqb_eq in E as ->. intros [= ->]. left.
  - intros H. right. auto.
Qed.

Lemma column_get_present cols c :
  c ∈ cols.*1 -> is_Some (column_get cols c).
Proof.
  induction cols as [|[c' cells'] cols IH]; simpl.
  - intros H. inversion H.
  - destruct (String.eqb c' c) eqn:E; [eauto | ].
    intros [-> | H]%elem_of_cons; [ | auto].
    rewrite String.eqb_refl in E. discriminate.
Qed.

Lemma zip_star_length (arrays : list (list pyval)) (n : nat) :
  arrays <> [] ->
  Forall (fun a => length a = n) arrays ->
  length (zip_star arrays) = n.
Proof.
  induction arrays as [|a arrays IH]; [contradiction | ].
  intros _ [Ha Hall]%Forall_cons.
  destruct arrays as [|b rest].
  - simpl. rewrite length_fmap. exact Ha.
  - change (zip_star (a :: b :: rest))
      with (zip_with cons a (zip_star (b :: rest))).
    rewrite length_zip_with, Ha, IH by (auto; discriminate). lia.
Qed.

Lemma zip_keys (names : list string) (row : list pyval) (k : string) :
  k ∈ (zip names row).*1 -> k ∈ names.
Proof.
  intros ([k' v] & -> & H)%list_elem_of_fmap.
  apply elem_of_zip_l in H. exact H.
Qed.

Lemma df_select_elem (df : DataFrame) (columns : list string)
    (col : string * list pyval) :
  col ∈ df_select df columns -> col.1 ∈ columns /\ col ∈ df_data df.
Proof.
  unfold df_select.
  intros (c & Hc & H)%list_elem_of_omap.
  destruct (column_get (df_data df) c) as [cells|] eqn:Hcol;
    [ | discriminate].
  injection H as <-. split; [exact Hc | ].
  apply column_get_elem. exact Hcol.
Qed.

Lemma bump_sum v acc : sum_counts (bump v acc) = S (sum_counts acc).
Proof.
  induction acc as [|[u n] acc IH]; simpl; [reflexivity | ].
  destruct (py_eq u v); unfold sum_counts in *; simpl in *; lia.
Qed.

Lemma tally_sum cells : sum_counts (tally cells) = length cells.
Proof.
  unfold tally.
  cut (forall acc,
         sum_counts (fold_left (fun acc v => bump v acc) cells acc)
         = sum_counts acc + length cells).
  { intros H. rewrite H. reflexivity. }
  induction cells as [|v cells IH]; intros acc; simpl; [lia | ].
  rewrite IH, bump_sum. lia.
Qed.

Lemma insert_by_count_sum x l :
  sum_counts (insert_by_count x l) = x.2 + sum_counts l.
Proof.
  induction l as [|y l IH]; simpl; [reflexivity | ].
  destruct (y.2 <=? x.2); unfold sum_counts in *; simpl in *; lia.
Qed.

Lemma insert_by_count_length x l :
  length (insert_by_count x l) = S (length l).
Proof.
  induction l as [|y l IH]; simpl; [reflexivity | ].
  destruct (y.2 <=? x.2); simpl; lia.
Qed.

Lemma sort_by_count_sum l : sum_counts (sort_by_count l) = sum_counts l.
Proof.
  induction l as [|x l IH]; simpl; [reflexivity | ].
  rewrite insert_by_count_sum, IH. reflexivity.
Qed.


Section LanguageStats.
Variable tie_up : nat -> nat -> bool.

(** A rounded percentage is within half a tenth of the exact one. *)
Lemma round_percentage_spec (count total : nat) :
  0 < total ->
  exists p,
    round_percentage tie_up count total = Ok p
    /\ (2 * Z.abs (Z.of_nat total * p - 1000 * Z.of_nat count)
        <= Z.of_nat total)%Z.
Proof.
  intros Htotal. unfold round_percentage.
  destruct (total =? 0) eqn:E; [apply Nat.eqb_eq in E; lia | ].
  eexists. split; [reflexivity | ].
  set (t := Z.of_nat total). set (num := (1000 * Z.of_nat count)%Z).
  assert (Ht : (0 < t)%Z) by (unfold t; lia).
  pose proof (Z.div_mod num t ltac:(lia)) as Hdm.
  pose proof (Z.mod_pos_bound num t Ht) as Hr.
  destruct (2 * (num `mod` t) <? t)%Z eqn:E1.
  - apply Z.ltb_lt in E1. lia.
  - apply Z.ltb_ge in E1.
    destruct (t <? 2 * (num `mod` t))%Z eqn:E2.
    + apply Z.ltb_lt in E2. lia.
    + apply Z.ltb_ge in E2. destruct (tie_up count total); lia.
Qed.

Lemma language_entries_sum (total : nat) (lang_counts : list (pyval * nat)) :
  0 < total ->
  exists stats,
    mapM_result (language_entry tie_up total) lang_counts = Ok stats
    /\ length stats = length lang_counts
    /\ (2 * Z.abs (Z.of_nat total * sum_percentages stats
                   - 1000 * Z.of_nat (sum_counts lang_counts))
        <= Z.of_nat (length lang_counts) * Z.of_nat total)%Z.
Proof.
  intros Htotal.
  induction lang_counts as [|[lang count] lang_counts IH].
  - exists []. simpl. repeat split. lia.
  - destruct IH as (stats & Hstats & Hlen & Hsum).
    destruct (round_percentage_spec count total Htotal) as (p & Hp & Hbound).
    simpl. rewrite Hp, Hstats. simpl. eexists. split; [reflexivity | ].
    split; [simpl; congruence | ].
    unfold sum_percentages, sum_counts in *. simpl. lia.
Qed.

(** Dividing by a row count of zero raises. *)
Lemma round_percentage_no_rows (count : nat) :
  round_percentage tie_up count 0 = Err ZeroDivisionError.
Proof. reflexivity. Qed.

End LanguageStats.

Section RoutesProperties.
Variable config : TwitterConfig.
Variable upstream : nat -> outcome.
Variable tie_up : nat -> nat -> bool.
Variable strftime_now : World -> string.
Variable clean_dataframe :
  DataFrame -> pyval -> World -> result DataFrame * World.
Variable analyze : DataFrame -> World -> result pyval * World.
Variable str_exn : exn -> string.

(** C9: on a frame without rows [calculate_language_stats] returns the
    empty list; no [ZeroDivisionError] is raised, for there is no language
    to divide a count for. *)
Theorem calculate_language_stats_empty (df : DataFrame) :
  df_len df = 0 ->
  Forall (fun col : string * list pyval => length col.2 = df_len df)
         (df_data df) ->
  calculate_language_stats tie_up df = Ok [].
Proof.
  intros Hlen Hwf. unfold calculate_language_stats.
  destruct (column_get (df_data df) "original_lang") as [cells|] eqn:Hcol;
    [ | reflexivity].
  apply column_get_elem in Hcol.
  rewrite Forall_forall in Hwf. specialize (Hwf _ Hcol). simpl in Hwf.
  rewrite Hlen in Hwf. apply nil_length_inv in Hwf as ->.
  reflexivity.
Qed.


(** *** Persistence *)

(** Whatever [save_tweets_with_sentiment] does, [GET /api/tweets] answers
    as before: the file it reads is none of the two that are written. *)
Lemma save_not_seen_by_get_latest (df : DataFrame) (search_query : pyval)
    (w : World) :
  get_latest_tweets str_exn
    (save_tweets_with_sentiment tie_up strftime_now df search_query w).2
  = get_latest_tweets str_exn w.
Proof.
  unfold save_tweets_with_sentiment.
  destruct (calculate_language_stats tie_up df) as [stats|e];
    [ | reflexivity].
  destruct (sanitize_query search_query) as [sanitized|e]; [ | reflexivity].
  unfold get_latest_tweets. simpl.
  rewrite !lookup_insert_ne; [reflexivity | | ].
  - unfold String.append. simpl. discriminate.
  - discriminate.
Qed.

(** What is written, when something is: the same envelope under both
    names, and nothing else changes. *)
Lemma save_writes (df : DataFrame) (search_query : pyval) (w : World)
    (filename : string) (w' : World) :
  save_tweets_with_sentiment tie_up strftime_now df search_query w
  = (Ok filename, w') ->
  exists envelope,
    w_files w'
    = <["data/latest_tweets.json" := JsonFile envelope]>
        (<[filename := JsonFile envelope]> (w_files w))
    /\ w_requests w' = w_requests w.
Proof.
  unfold save_tweets_with_sentiment.
  destruct (calculate_language_stats tie_up df) as [stats|e];
    [ | discriminate].
  destruct (sanitize_query search_query) as [sanitized|e]; [ | discriminate].
  intros [= <- <-]. eexists. split; reflexivity.
Qed.

(** The envelope that is written has one tweet per row of the frame (as
    soon as the frame has one of the desired columns) and no field outside
    the desired columns. *)
Lemma save_envelope (df : DataFrame) (search_query : pyval) (w : World)
    (filename : string) (w' : World) :
  save_tweets_with_sentiment tie_up strftime_now df search_query w
  = (Ok filename, w') ->
  Forall (fun col : string * list pyval => length col.2 = df_len df)
         (df_data df) ->
  (exists c, c ∈ desired_columns /\ c ∈ df_columns df) ->
  exists metadata tweet_records,
    w_files w' !! "data/latest_tweets.json"
    = Some (JsonFile
              (PDict [ ("metadata", PDict metadata);
                       ("tweets", PList (PDict <$> tweet_records)) ]))
    /\ dict_get metadata "total_tweets"
       = Some (PInt (Z.of_nat (df_len df)))
    /\ length tweet_records = df_len df
    /\ Forall (fun r : dict => forall k, k ∈ r.*1 -> k ∈ desired_columns)
              tweet_records.
Proof.
  unfold save_tweets_with_sentiment.
  destruct (calculate_language_stats tie_up df) as [stats|e];
    [ | discriminate].
  destruct (sanitize_query search_query) as [sanitized|e]; [ | discriminate].
  intros [= <- <-] Hwf (c & Hdesired & Hc).
  set (columns_to_save :=
         filter (fun col => col ∈ df_columns df) desired_columns).
  assert (Hlen : length (to_dict_records (df_select df columns_to_save))
                 = df_len df).
  { unfold to_dict_records. rewrite length_fmap.
    apply zip_star_length.
    - destruct (column_get_present (df_data df) c Hc) as [cells Hcells].
      assert (Hin : (c, cells) ∈ df_select df columns_to_save).
      { unfold df_select. apply list_elem_of_omap. exists c. split.
        - apply list_elem_of_filter. auto.
        - rewrite Hcells. reflexivity. }
      intros Hnil. apply fmap_nil_inv in Hnil. rewrite Hnil in Hin.
      inversion Hin.
    - apply Forall_fmap, Forall_forall. intros col Hcol.
      apply df_select_elem in Hcol as [_ Hcol].
      rewrite Forall_forall in Hwf. exact (Hwf col Hcol). }
  eexists _, _. split; [simpl; apply lookup_insert_eq | ].
  split; [simpl; rewrite Hlen; reflexivity | ].
  split; [exact Hlen | ].
  unfold to_dict_records. apply Forall_fmap, Forall_forall.
  intros row _ k Hk. simpl in Hk. apply zip_keys in Hk.
  apply list_elem_of_fmap in Hk as (col & -> & Hcol).
  apply df_select_elem in Hcol as [Hcol _].
  apply list_elem_of_filter in Hcol as [_ Hcol]. exact Hcol.
Qed.

(** C8: a body without [searchQuery], or with an empty one, is answered
    with status 400 and the world is left as it was: no request has been
    made and no file written. *)
Theorem variable_rejects_empty_query (d : dict) (w : World) :
  dict_get d "searchQuery" = None
  \/ dict_get d "searchQuery" = Some (PStr "") ->
  variable config upstream tie_up strftime_now clean_dataframe analyze
    str_exn (PDict d) w
  = (Ok {| status := 400;
           body := PDict [("message", PStr "No search query provided.")] |},
     w).
Proof.
  intros [H | H]; unfold variable; simpl; rewrite H; reflexivity.
Qed.

End RoutesProperties.

(** * The properties on sample inputs *)

(** C1: a save into an empty data directory followed by [GET /api/tweets].
    The envelope is written to [data/latest_tweets.json]; the handler
    reads [server/data/latest_tweets.json] and answers 404. *)
Theorem save_then_get_latest_not_found :
  let saved :=
    save_tweets_with_sentiment no_ties sample_clock two_languages
      (PStr "rocq prover") empty_world in
  saved.1 = Ok "data/tweets_rocq_prover_2024-01-01_00-00-00.json"
  /\ is_Some (w_files saved.2 !! "data/latest_tweets.json")
  /\ w_files saved.2 !! "server/data/latest_tweets.json" = None
  /\ get_latest_tweets sample_str_exn saved.2
     = {| status := 404;
          body := PDict [("message", PStr "No tweet data available yet")] |}.
Proof.
  cbv zeta. split; [vm_compute; reflexivity | ].
  split; [vm_compute; eexists; reflexivity | ].
  split; vm_compute; reflexivity.
Qed.



(** One accepted page, then a request that times out. *)
Lemma fetch_tweets_partial_success_witness :
  exists recs w',
    mapM_result _process_tweet_data
      (concat (page_results <$>
                 (upstream_failing
                    <$> seq (length (w_requests empty_world)) 1)))
    = Ok recs
    /\ fetch_tweets sample_config upstream_failing (PStr "rocq") empty_world
       = (Ok (pd_DataFrame recs), w')
    /\ requests_issued empty_world w' = 1 + 1.
Proof.
  apply (proj2 (fetch_tweets_partial_success sample_config upstream_failing
                  (PStr "rocq") empty_world) 1).
  - unfold max_pages. lia.
  - intros i Hi. destruct i; [split; reflexivity | lia].
  - reflexivity.
Defined.

(** An upstream that always has a next page. *)
Lemma fetch_tweets_page_cap_witness :
  requests_issued empty_world
    (fetch_tweets sample_config upstream_endless (PStr "rocq") empty_world).2
  <= 5.
Proof.
  apply (fetch_tweets_page_cap sample_config upstream_endless).
  intros n. reflexivity.
Defined.

(** The cap is reached on that input. *)
Example fetch_tweets_five_requests :
  requests_issued empty_world
    (fetch_tweets sample_config upstream_endless (PStr "rocq") empty_world).2
  = 5.
Proof. vm_compute. reflexivity. Qed.

(** A first page without results and without token. *)
Lemma fetch_tweets_empty_result_witness :
  (fetch_tweets sample_config upstream_empty (PStr "rocq") empty_world).1
  = Err no_tweets_found.
Proof.
  apply (proj2 (fetch_tweets_empty_result sample_config upstream_empty
                  (PStr "rocq") empty_world)).
  vm_compute. reflexivity.
Defined.

(** The example record: [retweet_count] and the user are absent. *)
Lemma process_tweet_defaulting_witness :
  dict_get sample_record "retweet_count" = Some (PInt 0)
  /\ dict_get sample_record "user_name" = Some (PStr "").
Proof.
  destruct process_tweet_defaulting as (Hexample & Hcount & Huser & _).
  split.
  - apply (Hcount [("tweet_id", PStr "1"); ("tweet_text", PStr "hi");
                   ("favorite_count", PStr "3")] sample_record
             "retweet_count").
    + exact Hexample.
    + unfold count_fields. in_list.
    + reflexivity.
  - apply (Huser [("tweet_id", PStr "1"); ("tweet_text", PStr "hi");
                  ("favorite_count", PStr "3")] sample_record).
    + exact Hexample.
    + reflexivity.
Defined.

(** A present count that converts, and a present null that does not. *)
Lemma process_tweet_present_count_not_defaulted_witness :
  (exists n, py_int (PStr "3") = Ok n
             /\ dict_get sample_record "favorite_count" = Some (PInt n))
  /\ exists e, _process_tweet_data
                 (PDict [("tweet_id", PStr "1"); ("reply_count", PNone)])
               = Err e.
Proof.
  destruct process_tweet_present_count_not_defaulted
    as (Hpresent & Hraises & _ & _).
  split.
  - apply (Hpresent [("tweet_id", PStr "1"); ("tweet_text", PStr "hi");
                     ("favorite_count", PStr "3")] sample_record
             "favorite_count" (PStr "3")).
    + unfold count_fields. in_list.
    + reflexivity.
    + reflexivity.
  - apply (Hraises [("tweet_id", PStr "1"); ("reply_count", PNone)]
             "reply_count" PNone TypeError).
    + unfold count_fields. in_list.
    + reflexivity.
    + reflexivity.
Defined.



(** An empty [searchQuery] against an upstream that would answer. *)
Lemma variable_rejects_empty_query_witness :
  variable sample_config upstream_endless no_ties sample_clock sample_clean
    sample_analyze sample_str_exn (PDict [("searchQuery", PStr "")])
    empty_world
  = (Ok {| status := 400;
           body := PDict [("message", PStr "No search query provided.")] |},
     empty_world).
Proof.
  apply (variable_rejects_empty_query sample_config upstream_endless no_ties
           sample_clock sample_clean sample_analyze sample_str_exn
           [("searchQuery", PStr "")] empty_world).
  right. reflexivity.
Defined.

(** A frame with an [original_lang] column and no row. *)
Lemma calculate_language_stats_empty_witness :
  calculate_language_stats no_ties frame_without_rows = Ok [].
Proof.
  apply (calculate_language_stats_empty no_ties frame_without_rows).
  - reflexivity.
  - repeat constructor.
Defined.

(** * Further properties *)

(** ** More on the paginated fetch *)

Lemma dict_get_set_eq (d : dict) (k : string) (v : pyval) :
  dict_get (dict_set d k v) k = Some v.
Proof.
  induction d as [|[k' v'] d IH]; simpl.
  - rewrite String.eqb_refl. reflexivity.
  - destruct (String.eqb k' k) eqn:E; simpl; rewrite E;
      [reflexivity | exact IH].
Qed.

Lemma dict_get_set_ne (d : dict) (k k' : string) (v : pyval) :
  k <> k' -> dict_get (dict_set d k v) k' = dict_get d k'.
Proof.
  intros Hne. induction d as [|[k0 v0] d IH]; simpl.
  - destruct (String.eqb k k') eqn:E; [ | reflexivity].
    apply String.eqb_eq in E. contradiction.
  - destruct (String.eqb k0 k) eqn:E; simpl.
    + apply String.eqb_eq in E as ->.
      destruct (String.eqb k k') eqn:E'; [ | reflexivity].
      apply String.eqb_eq in E'. contradiction.
    + rewrite IH. reflexivity.
Qed.

(** A response with results that normalise is accepted, as an initial page
    and as a continuation page, and hands on the token it carries. *)
Lemma accepted_response o :
  carries_results o = true ->
  results_normalise o = true ->
  exists recs,
    mapM_result _process_tweet_data (page_results o) = Ok recs
    /\ recs <> []
    /\ initial_response o = Ok (recs, response_token o)
    /\ continuation_response o = Ok (Continue recs (response_token o)).
Proof.
  intros Hcarry Hnorm.
  destruct o as [msg|status_code text [[| | | | | |data]|]]; try discriminate.
  unfold carries_results in Hcarry.
  apply andb_prop in Hcarry as [Hs Hcarry].
  destruct (dict_get data "results") as [[| | | | |[|t results]|]|] eqn:Hres;
    try discriminate.
  unfold results_normalise in Hnorm.
  assert (Hpage : page_results (Response status_code text (Some (PDict data)))
                  = t :: results).
  { simpl. rewrite Hres. reflexivity. }
  rewrite Hpage in Hnorm |- *.
  apply mapM_result_total in Hnorm as (recs & Hrecs).
  exists recs. split; [exact Hrecs | ].
  split.
  { intros ->. apply mapM_result_length in Hrecs. discriminate. }
  unfold initial_response, continuation_response.
  rewrite Hs. simpl. rewrite Hres. simpl.
  simpl in Hrecs. rewrite Hrecs. simpl.
  split; reflexivity.
Qed.

Lemma initial_response_token o recs tok :
  initial_response o = Ok (recs, tok) -> tok = response_token o.
Proof.
  destruct o as [msg|status_code text json]; simpl; [discriminate | ].
  destruct (negb (status_code =? 200)%Z); [discriminate | ].
  intros H.
  apply bind_Ok in H as (data & Hdata & H).
  apply bind_Ok in H as (ks & _ & H).
  apply bind_Ok in H as (n & _ & H).
  apply bind_Ok in H as (tw & _ & H).
  apply bind_Ok in H as (items & _ & H).
  apply bind_Ok in H as (processed & _ & H).
  apply bind_Ok in H as (tok' & Htok & H).
  injection H as <- <-.
  apply response_json_Ok in Hdata as ->.
  rewrite Htok. reflexivity.
Qed.

Lemma continuation_response_token o new tok :
  continuation_response o = Ok (Continue new tok) -> tok = response_token o.
Proof.
  destruct o as [msg|status_code text json]; simpl; [discriminate | ].
  destruct (negb (status_code =? 200)%Z); [discriminate | ].
  intros H.
  apply bind_Ok in H as (data & Hdata & H).
  apply bind_Ok in H as (ks & _ & H).
  apply bind_Ok in H as (n & _ & H).
  apply bind_Ok in H as (tw & _ & H).
  destruct (negb (truthy tw)); [discriminate | ].
  apply bind_Ok in H as (items & _ & H).
  apply bind_Ok in H as (processed & _ & H).
  apply bind_Ok in H as (tok' & Htok & H).
  injection H as <- <-.
  apply response_json_Ok in Hdata as ->.
  rewrite Htok. reflexivity.
Qed.

Lemma without_results_Break o :
  without_results o = true -> continuation_response o = Ok Break.
Proof.
  destruct o as [msg|status_code text [[| | | | | |data]|]]; try discriminate.
  unfold without_results. intros [Hs Hres]%andb_prop.
  unfold continuation_response. rewrite Hs. simpl.
  destruct (dict_get data "results") as [[| | | | |[|t results]|]|];
    try discriminate; reflexivity.
Qed.

Section FetchFurther.
Variable config : TwitterConfig.
Variable upstream : nat -> outcome.

(** One pass of the loop. *)
Lemma continuation_loop_step fuel hd ps page tok acc w :
  truthy tok = true -> page < max_pages ->
  continuation_loop config upstream (S fuel) hd ps page tok acc w
  = match continuation_response (upstream (length (w_requests w))) with
    | Ok (Continue new tok') =>
        continuation_loop config upstream fuel hd ps (page + 1) tok'
          (acc ++ new)
          (log_request (loop_request config hd ps tok) (time_sleep 1 w))
    | _ => (acc, log_request (loop_request config hd ps tok) (time_sleep 1 w))
    end.
Proof.
  intros Htok Hpage. simpl. rewrite Htok.
  apply Nat.ltb_lt in Hpage. rewrite Hpage. simpl.
  destruct (continuation_response _) as [[|new tok']|]; reflexivity.
Qed.

(** Without a token the loop does nothing. *)
Lemma continuation_loop_no_token fuel hd ps page tok acc w :
  truthy tok = false ->
  continuation_loop config upstream fuel hd ps page tok acc w = (acc, w).
Proof. intros Htok. destruct fuel; simpl; [ | rewrite Htok]; reflexivity. Qed.

(** At the cap the loop does nothing. *)
Lemma continuation_loop_at_cap fuel hd ps page tok acc w :
  max_pages <= page ->
  continuation_loop config upstream fuel hd ps page tok acc w = (acc, w).
Proof.
  intros Hpage. destruct fuel; simpl; [reflexivity | ].
  replace (page <? max_pages) with false by (symmetry; apply Nat.ltb_ge; lia).
  rewrite andb_false_r. reflexivity.
Qed.

(** The loop across [j] responses that go on. *)
Lemma continuation_loop_advance j : forall fuel hd ps page tok acc w,
  truthy tok = true -> page + j <= max_pages -> j <= fuel ->
  (forall i, i < j ->
     carries_token_and_results (upstream (length (w_requests w) + i)) = true
     /\ results_normalise (upstream (length (w_requests w) + i)) = true) ->
  exists recs tok' w',
    mapM_result _process_tweet_data
      (raw_results upstream (length (w_requests w)) j) = Ok recs
    /\ truthy tok' = true
    /\ length (w_requests w') = length (w_requests w) + j
    /\ continuation_loop config upstream fuel hd ps page tok acc w
       = continuation_loop config upstream (fuel - j) hd ps (page + j) tok'
           (acc ++ recs) w'.
Proof.
  induction j as [|j IH]; intros fuel hd ps page tok acc w Htok Hpage Hfuel
    Hgood.
  - exists [], tok, w. rewrite app_nil_r, !Nat.add_0_r, Nat.sub_0_r.
    repeat split. exact Htok.
  - destruct fuel as [|fuel]; [lia | ].
    destruct (Hgood 0 ltac:(lia)) as [Hc Hn]. rewrite Nat.add_0_r in Hc, Hn.
    destruct (carried_response _ Hc Hn)
      as (new & tok1 & Hnew & _ & Htok1 & _ & Hcont).
    rewrite continuation_loop_step, Hcont by (auto; lia).
    set (w1 := log_request (loop_request config hd ps tok) (time_sleep 1 w)).
    assert (Hw1 : length (w_requests w1) = length (w_requests w) + 1).
    { unfold w1. simpl. rewrite length_app. reflexivity. }
    destruct (IH fuel hd ps (page + 1) tok1 (acc ++ new) w1)
      as (recs & tok' & w' & Hrecs & Htok' & Hlen & Hloop);
      try assumption; try lia.
    { intros i Hi. rewrite Hw1.
      replace (length (w_requests w) + 1 + i)
        with (length (w_requests w) + S i) by lia.
      apply Hgood. lia. }
    exists (new ++ recs), tok', w'. split; [ | split; [exact Htok' | split]].
    + unfold raw_results in *. simpl. apply mapM_result_app; [exact Hnew | ].
      rewrite Hw1 in Hrecs.
      replace (S (length (w_requests w)))
        with (length (w_requests w) + 1) by lia.
      exact Hrecs.
    + lia.
    + rewrite Hloop, app_assoc. simpl.
      replace (page + 1 + j) with (page + S j) by lia. reflexivity.
Qed.

(** What the loop sends and how long it sleeps, whatever the upstream
    answers: one second before each request, and with each request the
    token of the response before. *)
Lemma continuation_loop_log fuel : forall hd ps page tok acc w,
  exists k,
    w_requests (continuation_loop config upstream fuel hd ps page tok acc w).2
    = w_requests w
      ++ ((fun i =>
             loop_request config hd ps
               (sent_token upstream tok (length (w_requests w)) i))
            <$> seq 0 k)
    /\ w_slept (continuation_loop config upstream fuel hd ps page tok acc w).2
       = w_slept w + k.
Proof.
  induction fuel as [|fuel IH]; intros hd ps page tok acc w.
  - exists 0. simpl. rewrite app_nil_r. split; [reflexivity | lia].
  - destruct (truthy tok) eqn:Htok;
      [ | exists 0; rewrite continuation_loop_no_token by exact Htok;
          simpl; rewrite app_nil_r; split; [reflexivity | lia]].
    destruct (decide (page < max_pages)) as [Hpage|Hpage];
      [ | exists 0; rewrite continuation_loop_at_cap by lia;
          simpl; rewrite app_nil_r; split; [reflexivity | lia]].
    rewrite continuation_loop_step by assumption.
    destruct (continuation_response (upstream (length (w_requests w))))
      as [[|new tok']|] eqn:Hresp;
      try (exists 1; simpl; split; [reflexivity | lia]).
    set (w1 := log_request (loop_request config hd ps tok) (time_sleep 1 w)).
    destruct (IH hd ps (page + 1) tok' (acc ++ new) w1) as (k & Hreq & Hsl).
    exists (S k). rewrite Hreq, Hsl. unfold w1. simpl.
    split; [ | lia].
    rewrite <- app_assoc. simpl. do 2 f_equal.
    rewrite <- fmap_S_seq, <- list_fmap_compose.
    apply list_fmap_ext. intros i x _. simpl. f_equal.
    apply continuation_response_token in Hresp as ->.
    rewrite length_app. simpl.
    destruct x as [|x]; simpl.
    + rewrite Nat.add_0_r. reflexivity.
    + do 2 f_equal. lia.
Qed.

#[local] Arguments continuation_loop : simpl never.

(** What a call adds to the world, whatever the upstream answers. *)
Lemma fetch_tweets_world q w :
  let w' := (fetch_tweets config upstream q w).2 in
  exists k,
    k < max_pages
    /\ w_requests w'
       = w_requests w
         ++ first_request config q
            :: ((fun i =>
                   continuation_request config q
                     (response_token (upstream (length (w_requests w) + i))))
                  <$> seq 0 k)
    /\ w_slept w' = w_slept w + k
    /\ w_files w' = w_files w.
Proof.
  pose proof (fetch_tweets_requests_bound config upstream q w)
    as (_ & Hle & Hfiles).
  cbv zeta in *. revert Hle Hfiles.
  unfold fetch_tweets, collect_tweets. simpl.
  destruct (initial_response _) as [[recs0 tok]|e] eqn:Hinit; simpl.
  - pose proof (continuation_loop_log max_pages
                  (api_headers config) (search_params config q) 1 tok
                  ([] ++ recs0) (log_request (first_request config q) w))
      as (k & Hreq & Hsl).
    fold (api_headers config). fold (search_params config q).
    fold (first_request config q).
    destruct (continuation_loop _ _ _ _ _ _ _ _ _) as [all w2].
    simpl in Hreq, Hsl.
    assert (Hw2 : forall b : bool,
              (if b
               then (Err (Exception "No tweets found in the response"), w2)
               else (Ok (pd_DataFrame all), w2)).2 = w2)
      by (intros []; reflexivity).
    rewrite Hw2. intros Hle Hfiles. exists k.
    rewrite Hreq in Hle |- *. rewrite !length_app in Hle. simpl in Hle.
    rewrite length_fmap, length_seq in Hle.
    split; [lia | ]. split; [ | split; [exact Hsl | exact Hfiles]].
    rewrite <- app_assoc. simpl. do 2 f_equal.
    apply list_fmap_ext. intros i x _.
    unfold loop_request, continuation_request. f_equal. f_equal.
    apply initial_response_token in Hinit as ->.
    rewrite length_app. simpl.
    destruct x as [|x]; simpl.
    + rewrite Nat.add_0_r. reflexivity.
    + do 2 f_equal. lia.
  - intros _ _. exists 0. simpl. unfold max_pages.
    repeat split; lia.
Qed.

(** A frame that is returned is the frame of the normalised results of
    the first [k] responses. *)
Lemma fetch_tweets_Ok_inv q w df w' :
  fetch_tweets config upstream q w = (Ok df, w') ->
  exists k recs,
    1 <= k <= max_pages
    /\ mapM_result _process_tweet_data
         (raw_results upstream (length (w_requests w)) k) = Ok recs
    /\ recs <> []
    /\ df = pd_DataFrame recs.
Proof.
  unfold fetch_tweets, collect_tweets. simpl.
  destruct (initial_response _) as [[recs0 tok]|e] eqn:Hinit;
    [ | discriminate].
  destruct (continuation_loop _ _ _ _ _ _ _ _ _) as [all w2] eqn:Hloop.
  apply continuation_loop_spec in Hloop
    as (_ & _ & _ & k & recs & Hk & _ & Hrecs & ->).
  simpl in Hrecs. rewrite length_app in Hrecs. simpl in Hrecs.
  destruct (bool_decide (recs0 ++ recs = [])) eqn:Hempty; [discriminate | ].
  apply bool_decide_eq_false in Hempty.
  intros [= <- <-].
  exists (S k), (recs0 ++ recs).
  split; [unfold max_pages in *; lia | ].
  split; [ | split; [exact Hempty | reflexivity]].
  unfold raw_results. simpl. apply mapM_result_app.
  - apply initial_response_Ok in Hinit. exact Hinit.
  - replace (S (length (w_requests w)))
      with (length (w_requests w) + 1) by lia.
    exact Hrecs.
Qed.

(** If the initial request fails, by an exception of [requests] or by a
    status other than 200, [fetch_tweets] raises (for the status, the
    "API request failed" exception with the status and the body) after
    that one request, without sleeping and without a further request. *)
Theorem fetch_tweets_initial_failure q w :
  (forall msg,
     upstream (length (w_requests w)) = Raised msg ->
     fetch_tweets config upstream q w
     = (Err (RequestException msg), log_request (first_request config q) w))
  /\ (forall status_code text json,
        upstream (length (w_requests w)) = Response status_code text json ->
        status_code <> 200%Z ->
        fetch_tweets config upstream q w
        = (Err (Exception ("API request failed: " +:+ pretty status_code
                           +:+ " - " +:+ text)),
           log_request (first_request config q) w)).
Proof.
  split.
  - intros msg Hup. unfold fetch_tweets, collect_tweets. simpl.
    rewrite Hup. reflexivity.
  - intros status_code text json Hup Hstatus.
    unfold fetch_tweets, collect_tweets. simpl. rewrite Hup. simpl.
    apply Z.eqb_neq in Hstatus. rewrite Hstatus. reflexivity.
Qed.

(** One second of sleep goes before each continuation request and none
    before the initial one; no file is touched. *)
Theorem fetch_tweets_sleeps_between_pages q w :
  let w' := (fetch_tweets config upstream q w).2 in
  w_slept w' + 1 = w_slept w + requests_issued w w'
  /\ w_files w' = w_files w.
Proof.
  destruct (fetch_tweets_world q w) as (k & _ & Hreq & Hsl & Hfiles).
  cbv zeta. split; [ | exact Hfiles].
  unfold requests_issued. rewrite Hreq, Hsl, length_app. simpl.
  rewrite length_fmap, length_seq. lia.
Qed.

(** The requests of one call: the search request with the query, then at
    most four continuation requests, each to the continuation endpoint
    with the same headers, the same query and the token that the response
    before carried. *)
Theorem fetch_tweets_requests_sent q w :
  (exists k,
     k < max_pages
     /\ w_requests (fetch_tweets config upstream q w).2
        = w_requests w
          ++ first_request config q
             :: ((fun i =>
                    continuation_request config q
                      (response_token
                         (upstream (length (w_requests w) + i))))
                   <$> seq 0 k))
  /\ dict_get (req_params (first_request config q)) "query" = Some q
  /\ forall token,
       dict_get (req_params (continuation_request config q token))
         "continuation_token" = Some token
       /\ dict_get (req_params (continuation_request config q token))
            "query" = Some q.
Proof.
  split; [ | split].
  - destruct (fetch_tweets_world q w) as (k & Hk & Hreq & _).
    exists k. split; assumption.
  - apply dict_get_set_eq.
  - intros token. simpl. split; [apply dict_get_set_eq | ].
    rewrite dict_get_set_ne by discriminate. apply dict_get_set_eq.
Qed.

(** The loop ends when a response carries no token: after [j] responses
    that go on and one that has results but no token, the frame holds the
    records of these [j + 1] responses and no further request is made. *)
Theorem fetch_tweets_stops_without_token q w j :
  j < max_pages ->
  (forall i, i < j ->
     carries_token_and_results (upstream (length (w_requests w) + i)) = true
     /\ results_normalise (upstream (length (w_requests w) + i)) = true) ->
  carries_results (upstream (length (w_requests w) + j)) = true ->
  results_normalise (upstream (length (w_requests w) + j)) = true ->
  truthy (response_token (upstream (length (w_requests w) + j))) = false ->
  exists recs w',
    mapM_result _process_tweet_data
      (raw_results upstream (length (w_requests w)) (S j)) = Ok recs
    /\ fetch_tweets config upstream q w = (Ok (pd_DataFrame recs), w')
    /\ requests_issued w w' = S j.
Proof.
  intros Hj Hgood Hcarry Hnorm Htok.
  unfold fetch_tweets, collect_tweets. simpl.
  set (w1 := log_request _ w).
  assert (Hw1 : length (w_requests w1) = length (w_requests w) + 1).
  { unfold w1. simpl. rewrite length_app. reflexivity. }
  destruct j as [|j].
  - rewrite Nat.add_0_r in Hcarry, Hnorm, Htok.
    destruct (accepted_response _ Hcarry Hnorm)
      as (recs & Hrecs & Hne & Hinit & _).
    rewrite Hinit, continuation_loop_no_token by exact Htok. simpl.
    exists recs, w1. split; [ | split].
    + unfold raw_results. simpl. rewrite app_nil_r. exact Hrecs.
    + rewrite bool_decide_eq_false_2 by exact Hne. reflexivity.
    + unfold requests_issued. lia.
  - destruct (Hgood 0 ltac:(lia)) as [Hc Hn]. rewrite Nat.add_0_r in Hc, Hn.
    destruct (carried_response _ Hc Hn)
      as (recs0 & tok & Hrecs0 & Hne & Htok0 & Hinit & _).
    rewrite Hinit.
    destruct (continuation_loop_advance j max_pages
                (api_headers config) (search_params config q) 1 tok
                recs0 w1)
      as (recs & tok' & w2 & Hrecs & Htok' & Hlen & Hloop);
      try assumption; try (unfold max_pages in *; lia).
    { intros i Hi. rewrite Hw1.
      replace (length (w_requests w) + 1 + i)
        with (length (w_requests w) + S i) by lia.
      apply Hgood. lia. }
    fold (api_headers config). fold (search_params config q).
    rewrite Hloop.
    destruct (accepted_response _ Hcarry Hnorm)
      as (last & Hlast & _ & _ & Hcont).
    replace (max_pages - j) with (S (max_pages - j - 1))
      by (unfold max_pages in *; lia).
    rewrite continuation_loop_step by (auto; unfold max_pages in *; lia).
    replace (length (w_requests w2)) with (length (w_requests w) + S j)
      by lia.
    rewrite Hcont, continuation_loop_no_token by exact Htok.
    simpl.
    eexists (recs0 ++ recs ++ last), _. split; [ | split].
    + unfold raw_results in *.
      replace (seq (length (w_requests w)) (S (S j)))
        with (length (w_requests w)
                :: seq (length (w_requests w1)) j
                   ++ [length (w_requests w) + S j]).
      2:{ rewrite Hw1. simpl. f_equal.
          replace (S (length (w_requests w)))
            with (length (w_requests w) + 1) by lia.
          replace (length (w_requests w) + S j)
            with (length (w_requests w) + 1 + j) by lia.
          rewrite <- seq_S. reflexivity. }
      rewrite !fmap_cons, !fmap_app. simpl.
      rewrite concat_app. simpl. rewrite app_nil_r.
      apply mapM_result_app; [exact Hrecs0 | ].
      apply mapM_result_app; [exact Hrecs | exact Hlast].
    + rewrite bool_decide_eq_false_2.
      * rewrite <- !app_assoc. reflexivity.
      * rewrite <- !app_assoc. simpl.
        intros [-> _]%app_eq_nil. contradiction.
    + unfold requests_issued. simpl. rewrite length_app. simpl. lia.
Qed.

(** The loop ends when a continuation response has no result: after [j]
    responses that go on and one with status 200 and no result, the frame
    holds the records of the [j] responses, and that request was the
    last. *)
Theorem fetch_tweets_stops_without_results q w j :
  1 <= j < max_pages ->
  (forall i, i < j ->
     carries_token_and_results (upstream (length (w_requests w) + i)) = true
     /\ results_normalise (upstream (length (w_requests w) + i)) = true) ->
  without_results (upstream (length (w_requests w) + j)) = true ->
  exists recs w',
    mapM_result _process_tweet_data
      (raw_results upstream (length (w_requests w)) j) = Ok recs
    /\ fetch_tweets config upstream q w = (Ok (pd_DataFrame recs), w')
    /\ requests_issued w w' = j + 1.
Proof.
  intros [Hj1 Hj5] Hgood Hdry.
  destruct j as [|j]; [lia | ].
  unfold fetch_tweets, collect_tweets. simpl.
  set (w1 := log_request _ w).
  assert (Hw1 : length (w_requests w1) = length (w_requests w) + 1).
  { unfold w1. simpl. rewrite length_app. reflexivity. }
  destruct (Hgood 0 ltac:(lia)) as [Hc Hn]. rewrite Nat.add_0_r in Hc, Hn.
  destruct (carried_response _ Hc Hn)
    as (recs0 & tok & Hrecs0 & Hne & Htok0 & Hinit & _).
  rewrite Hinit.
  destruct (continuation_loop_advance j max_pages
              (api_headers config) (search_params config q) 1 tok
              recs0 w1)
    as (recs & tok' & w2 & Hrecs & Htok' & Hlen & Hloop);
    try assumption; try (unfold max_pages in *; lia).
  { intros i Hi. rewrite Hw1.
    replace (length (w_requests w) + 1 + i)
      with (length (w_requests w) + S i) by lia.
    apply Hgood. lia. }
  fold (api_headers config). fold (search_params config q).
  rewrite Hloop.
  replace (max_pages - j) with (S (max_pages - j - 1))
    by (unfold max_pages in *; lia).
  rewrite continuation_loop_step by (auto; unfold max_pages in *; lia).
  replace (length (w_requests w2)) with (length (w_requests w) + S j) by lia.
  rewrite (without_results_Break _ Hdry). simpl.
  eexists (recs0 ++ recs), _. split; [ | split].
  - unfold raw_results in *. simpl. apply mapM_result_app; [exact Hrecs0 | ].
    rewrite Hw1 in Hrecs.
    replace (S (length (w_requests w)))
      with (length (w_requests w) + 1) by lia.
    exact Hrecs.
  - rewrite bool_decide_eq_false_2; [reflexivity | ].
    intros [-> _]%app_eq_nil. contradiction.
  - unfold requests_issued. simpl. rewrite length_app. simpl. lia.
Qed.

End FetchFurther.

(** The count fields of a normalised record hold integers. *)
Lemma process_tweet_counts_int (tweet : pyval) (r : dict) (c : string) :
  _process_tweet_data tweet = Ok r ->
  c ∈ count_fields ->
  exists n, dict_get r c = Some (PInt n).
Proof.
  intros H Hc.
  destruct (process_tweet_Ok tweet r H)
    as (d & _ & _ & _ & _ & _ & _ & _ & -> & _).
  destruct (process_tweet_count d r c Hc H) as (n & _ & Hn). eauto.
Qed.

(** A frame that [fetch_tweets] returns has at least one row, exactly the
    eleven columns of a normalised record, each with one cell per row, and
    integers in the four count columns. *)
Theorem fetch_tweets_frame_shape (config : TwitterConfig)
    (upstream : nat -> outcome) (q : pyval) (w : World) (df : DataFrame)
    (w' : World) :
  fetch_tweets config upstream q w = (Ok df, w') ->
  0 < df_len df
  /\ df_columns df = record_keys
  /\ Forall (fun col : string * list pyval => length col.2 = df_len df)
            (df_data df)
  /\ forall c, c ∈ count_fields ->
       exists cells,
         column_get (df_data df) c = Some cells
         /\ forallb is_int cells = true.
Proof.
  intros H.
  apply fetch_tweets_Ok_inv in H as (k & recs & _ & Hrecs & Hne & ->).
  assert (Hkeys : Forall (fun r : dict => r.*1 = record_keys) recs).
  { eapply mapM_result_Forall; [ | exact Hrecs].
    intros x y. apply process_tweet_keys. }
  assert (Hints : Forall (fun r : dict =>
                            forall c, c ∈ count_fields ->
                              exists n, dict_get r c = Some (PInt n)) recs).
  { eapply mapM_result_Forall; [ | exact Hrecs].
    intros x y Hy c Hc. exact (process_tweet_counts_int x y c Hy Hc). }
  split; [destruct recs; [contradiction | simpl; lia] | ].
  unfold df_columns, pd_DataFrame. simpl.
  rewrite (normalised_columns recs Hne Hkeys).
  split; [reflexivity | ].
  split.
  - apply Forall_fmap, Forall_forall. intros key _. simpl.
    apply length_fmap.
  - intros c Hc.
    assert (Hcells : forallb is_int
                       ((fun r : dict => default NaN (dict_get r c)) <$> recs)
                     = true).
    { clear Hrecs Hne Hkeys. induction Hints as [|r recs Hr _ IH];
        [reflexivity | ].
      rewrite fmap_cons. simpl. destruct (Hr c Hc) as (n & ->). exact IH. }
    unfold count_fields in Hc.
    repeat (apply elem_of_cons in Hc as [-> | Hc]); [ | | | | inversion Hc];
      (eexists; split; [reflexivity | exact Hcells]).
Qed.

(** ** Normalisation, once more *)


(** ** Tweets prepared for the frontend *)

Lemma mapM_result_each {A B} (f : A -> result B) (P : B -> Prop)
    (l : list A) :
  (forall x, x ∈ l -> exists y, f x = Ok y /\ P y) ->
  exists r, mapM_result f l = Ok r /\ length r = length l /\ Forall P r.
Proof.
  induction l as [|x l IH]; intros H.
  - exists []. repeat split. constructor.
  - destruct (H x ltac:(left)) as (y & Hy & Py).
    destruct IH as (r & Hr & Hlen & HP).
    { intros x' Hx'. apply H. right. exact Hx'. }
    exists (y :: r). simpl. rewrite Hy, Hr. simpl.
    repeat split; [congruence | constructor; assumption].
Qed.

Lemma mapM_result_lookup {A B} (f : A -> result B) (l : list A)
    (r : list B) (i : nat) (y : B) :
  mapM_result f l = Ok r -> r !! i = Some y ->
  exists x, l !! i = Some x /\ f x = Ok y.
Proof.
  revert r i. induction l as [|x l IH]; intros r i H Hi; simpl in H.
  - injection H as <-. destruct i; discriminate.
  - apply bind_Ok in H as (y' & Hy' & H).
    apply bind_Ok in H as (ys & Hys & H). injection H as <-.
    destruct i as [|i]; simpl in *.
    + injection Hi as <-. eauto.
    + eauto.
Qed.

(** A row of [iterrows] reads the cells of the columns. *)
Lemma row_get (data : list (string * list pyval)) (i : nat) (k : string) :
  dict_get ((fun col : string * list pyval =>
               (col.1, default NaN (col.2 !! i))) <$> data) k
  = (fun cells => default NaN (cells !! i)) <$> column_get data k.
Proof.
  induction data as [|[c cells] data IH]; [reflexivity | ].
  rewrite fmap_cons. simpl. destruct (String.eqb c k); [reflexivity | exact IH].
Qed.

Lemma iterrows_lookup (df : DataFrame) (i : nat) (row : dict) :
  iterrows df !! i = Some row ->
  i < df_len df
  /\ row = (fun col : string * list pyval =>
              (col.1, default NaN (col.2 !! i))) <$> df_data df.
Proof.
  unfold iterrows. rewrite list_lookup_fmap.
  destruct (seq 0 (df_len df) !! i) as [j|] eqn:Hj; [ | discriminate].
  apply lookup_seq in Hj as [-> Hlt]. simpl. intros [= <-]. auto.
Qed.

(** [prepare_tweet_data] needs the [id] and [text] columns: with both it
    returns one tweet per row, each with the same ten keys; on a frame
    with a row and without one of the two it raises [KeyError]. *)
Theorem prepare_tweet_data_rows (df : DataFrame) :
  (is_Some (column_get (df_data df) "id") ->
   is_Some (column_get (df_data df) "text") ->
   exists tweets,
     prepare_tweet_data df = Ok tweets
     /\ length tweets = df_len df
     /\ Forall (fun t : dict => t.*1 = prepared_keys) tweets)
  /\ (0 < df_len df ->
      column_get (df_data df) "id" = None
      \/ column_get (df_data df) "text" = None ->
      prepare_tweet_data df = Err KeyError).
Proof.
  split.
  - intros (ids & Hid) (texts & Htext). unfold prepare_tweet_data.
    match goal with
    | |- context [mapM_result ?f (iterrows df)] =>
        destruct (mapM_result_each f
                    (fun t : dict => t.*1 = prepared_keys) (iterrows df))
          as (tweets & Htweets & Hlen & Hkeys)
    end.
    + intros row Hrow. apply list_elem_of_lookup in Hrow as (i & Hrow).
      apply iterrows_lookup in Hrow as (_ & ->).
      unfold row_item. rewrite !row_get, Hid, Htext. simpl.
      eexists. split; reflexivity.
    + exists tweets. split; [exact Htweets | ]. split; [ | exact Hkeys].
      rewrite Hlen. unfold iterrows. rewrite length_fmap, length_seq.
      reflexivity.
  - intros Hpos Hmissing. unfold prepare_tweet_data, iterrows.
    destruct (df_len df) as [|n]; [lia | ].
    simpl. unfold row_item. rewrite !row_get.
    destruct Hmissing as [-> | Htext]; [reflexivity | ].
    rewrite Htext. simpl.
    destruct (column_get (df_data df) "id"); reflexivity.
Qed.

(** A prepared tweet is flagged [has_translation] exactly when its
    language is not equal to ["en"].  The language is the cell of the
    [original_lang] column, a missing cell included, and ["en"] when the
    frame has no such column. *)
Theorem prepare_tweet_data_translation_flag (df : DataFrame)
    (tweets : list dict) (i : nat) (t : dict) :
  prepare_tweet_data df = Ok tweets ->
  tweets !! i = Some t ->
  dict_get t "original_lang" = Some (row_language df i)
  /\ dict_get t "has_translation"
     = Some (PBool (negb (py_eq (row_language df i) (PStr "en")))).
Proof.
  unfold prepare_tweet_data. intros H Ht.
  destruct (mapM_result_lookup _ _ _ _ _ H Ht) as (row & Hrow & Hprep).
  apply iterrows_lookup in Hrow as (_ & ->).
  apply bind_Ok in Hprep as (id & _ & Hprep).
  apply bind_Ok in Hprep as (text & _ & Hprep).
  apply bind_Ok in Hprep as (text' & _ & Hprep).
  injection Hprep as <-.
  rewrite !row_get. unfold row_language.
  destruct (column_get (df_data df) "original_lang"); split; reflexivity.
Qed.

(** ** The language distribution *)

Lemma value_counts_Ok cells lang_counts :
  value_counts cells = Ok lang_counts ->
  lang_counts
  = sort_by_count (tally (filter (fun v => isna v = false) cells)).
Proof.
  unfold value_counts. destruct (forallb hashable cells); congruence.
Qed.

Lemma insert_by_count_Forall (P : pyval * nat -> Prop) x l :
  P x -> Forall P l -> Forall P (insert_by_count x l).
Proof.
  intros Hx Hl. induction Hl as [|y l Hy Hl IH]; simpl.
  - repeat constructor. exact Hx.
  - destruct (y.2 <=? x.2); repeat constructor; assumption.
Qed.

Lemma sort_by_count_Forall (P : pyval * nat -> Prop) l :
  Forall P l -> Forall P (sort_by_count l).
Proof.
  induction 1 as [|x l Hx Hl IH]; simpl; [constructor | ].
  apply insert_by_count_Forall; assumption.
Qed.

Lemma insert_by_count_sorted x l :
  StronglySorted (fun a b : pyval * nat => b.2 <= a.2) l ->
  StronglySorted (fun a b : pyval * nat => b.2 <= a.2) (insert_by_count x l).
Proof.
  induction 1 as [|y l Hl IH Hy]; simpl.
  - repeat constructor.
  - destruct (y.2 <=? x.2) eqn:E.
    + apply Nat.leb_le in E. constructor; [constructor; assumption | ].
      constructor; [exact E | ].
      eapply Forall_impl; [exact Hy | ]. intros z Hz. simpl in *. lia.
    + apply Nat.leb_gt in E. constructor; [exact IH | ].
      apply insert_by_count_Forall; [lia | exact Hy].
Qed.

Lemma sort_by_count_sorted l :
  StronglySorted (fun a b : pyval * nat => b.2 <= a.2) (sort_by_count l).
Proof.
  induction l as [|x l IH]; simpl; [constructor | ].
  apply insert_by_count_sorted. exact IH.
Qed.

Lemma bump_positive v acc :
  Forall (fun x : pyval * nat => 1 <= x.2) acc ->
  Forall (fun x : pyval * nat => 1 <= x.2) (bump v acc).
Proof.
  induction 1 as [|[u n] acc Hu Hacc IH]; simpl.
  - repeat constructor.
  - destruct (py_eq u v); constructor; simpl in *; try assumption; lia.
Qed.

Lemma tally_positive cells :
  Forall (fun x : pyval * nat => 1 <= x.2) (tally cells).
Proof.
  unfold tally.
  cut (forall acc,
         Forall (fun x : pyval * nat => 1 <= x.2) acc ->
         Forall (fun x : pyval * nat => 1 <= x.2)
                (fold_left (fun acc v => bump v acc) cells acc)).
  { intros H. apply H. constructor. }
  induction cells as [|v cells IH]; intros acc Hacc; simpl; [exact Hacc | ].
  apply IH, bump_positive, Hacc.
Qed.

Lemma sum_counts_bound (l : list (pyval * nat)) :
  Forall (fun x : pyval * nat => x.2 <= sum_counts l) l.
Proof.
  induction l as [|x l IH]; [constructor | ].
  unfold sum_counts in *. simpl. constructor; [lia | ].
  eapply Forall_impl; [exact IH | ]. intros y Hy. simpl in *. lia.
Qed.

Section LanguageFurther.
Variable tie_up : nat -> nat -> bool.

(** The entries follow the value counts: same order, same codes, same
    counts. *)
Lemma language_entries_fields (total : nat)
    (lang_counts : list (pyval * nat)) (stats : list LanguageStat) :
  mapM_result (language_entry tie_up total) lang_counts = Ok stats ->
  (fun s => (code s, count s)) <$> stats = lang_counts.
Proof.
  revert stats. induction lang_counts as [|[lang n] lang_counts IH];
    intros stats H; simpl in H.
  - injection H as <-. reflexivity.
  - apply bind_Ok in H as (s & Hs & H).
    apply bind_Ok in H as (rest & Hrest & H). injection H as <-.
    apply bind_Ok in Hs as (pct & _ & Hs). injection Hs as <-.
    rewrite fmap_cons, (IH rest Hrest). reflexivity.
Qed.

Lemma calculate_language_stats_Ok (df : DataFrame)
    (stats : list LanguageStat) :
  calculate_language_stats tie_up df = Ok stats ->
  (fun s => (code s, count s)) <$> stats
  = sort_by_count
      (tally (filter (fun v => isna v = false) (language_cells df)))
  /\ mapM_result (language_entry tie_up (df_len df))
       ((fun s => (code s, count s)) <$> stats) = Ok stats.
Proof.
  unfold calculate_language_stats, language_cells.
  destruct (column_get (df_data df) "original_lang") as [cells|].
  - intros H. apply bind_Ok in H as (lang_counts & Hvc & H).
    apply value_counts_Ok in Hvc. simpl.
    rewrite (language_entries_fields _ _ _ H). split; assumption.
  - intros [= <-]. split; reflexivity.
Qed.

Lemma sum_stat_counts_fields (stats : list LanguageStat) :
  sum_stat_counts stats
  = sum_counts ((fun s => (code s, count s)) <$> stats).
Proof.
  induction stats as [|s stats IH]; [reflexivity | ].
  rewrite fmap_cons. unfold sum_stat_counts, sum_counts in *. simpl.
  rewrite IH. reflexivity.
Qed.

(** The counts of the language distribution add up to the number of rows
    that have a language: rows whose language is missing ([None] or NaN)
    are in no entry, though they count in the total that the percentages
    refer to. *)
Theorem language_counts_sum (df : DataFrame) (stats : list LanguageStat) :
  calculate_language_stats tie_up df = Ok stats ->
  sum_stat_counts stats = rows_with_language df.
Proof.
  intros H. apply calculate_language_stats_Ok in H as [H _].
  rewrite sum_stat_counts_fields, H, sort_by_count_sum, tally_sum.
  reflexivity.
Qed.

(** The most frequent language comes first: the entries are in
    descending order of their counts. *)
Theorem language_stats_sorted (df : DataFrame) (stats : list LanguageStat) :
  calculate_language_stats tie_up df = Ok stats ->
  StronglySorted (fun a b => count b <= count a) stats.
Proof.
  intros H. apply calculate_language_stats_Ok in H as [H _].
  pose proof (sort_by_count_sorted
                (tally (filter (fun v => isna v = false) (language_cells df))))
    as Hsorted.
  rewrite <- H in Hsorted. clear H.
  induction stats as [|s stats IH]; [constructor | ].
  rewrite fmap_cons in Hsorted.
  apply StronglySorted_inv in Hsorted as [Hrest Hhead].
  constructor; [apply IH; exact Hrest | ].
  apply Forall_fmap in Hhead. exact Hhead.
Qed.

Lemma round_percentage_range (n total : nat) (p : Z) :
  n <= total ->
  round_percentage tie_up n total = Ok p ->
  (0 <= p <= 1000)%Z.
Proof.
  intros Hn. unfold round_percentage.
  destruct (total =? 0) eqn:E; [discriminate | ].
  apply Nat.eqb_neq in E. intros [= <-].
  set (t := Z.of_nat total). set (num := (1000 * Z.of_nat n)%Z).
  assert (Ht : (0 < t)%Z) by (unfold t; lia).
  assert (Hnum : (0 <= num <= 1000 * t)%Z) by (unfold num, t; lia).
  pose proof (Z.div_mod num t ltac:(lia)) as Hdm.
  pose proof (Z.mod_pos_bound num t Ht) as Hr.
  assert (Hq : (0 <= num / t)%Z) by (apply Z.div_pos; lia).
  assert (Hq' : (num / t <= 1000)%Z).
  { apply Z.div_le_upper_bound; lia. }
  assert (Hfull : (num / t = 1000 -> num `mod` t = 0)%Z) by nia.
  destruct (2 * (num `mod` t) <? t)%Z eqn:E1; [lia | ].
  apply Z.ltb_ge in E1.
  destruct (t <? 2 * (num `mod` t))%Z; [ | destruct (tie_up n total)]; lia.
Qed.

(** Every entry counts at least one row and at most all of them, and its
    percentage lies between 0 and 100. *)
Theorem language_stats_ranges (df : DataFrame) (stats : list LanguageStat) :
  calculate_language_stats tie_up df = Ok stats ->
  length (language_cells df) <= df_len df ->
  Forall (fun s => 1 <= count s <= df_len df
                   /\ (0 <= percentage s <= 1000)%Z) stats.
Proof.
  intros H Hlen. apply calculate_language_stats_Ok in H as [Hfields Hentries].
  set (cells := filter (fun v => isna v = false) (language_cells df)) in *.
  assert (Hcounts : Forall (fun x : pyval * nat => 1 <= x.2 <= df_len df)
                           ((fun s => (code s, count s)) <$> stats)).
  { rewrite Hfields. apply Forall_and. split.
    - apply sort_by_count_Forall, tally_positive.
    - pose proof (sum_counts_bound (sort_by_count (tally cells))) as Hb.
      rewrite sort_by_count_sum, tally_sum in Hb.
      eapply Forall_impl; [exact Hb | ]. intros x Hx. simpl in Hx.
      pose proof (length_filter (fun v => isna v = false) (language_cells df)).
      fold cells in H. lia. }
  clear Hfields. revert Hentries Hcounts.
  induction stats as [|s stats IH]; intros Hentries Hcounts; [constructor | ].
  rewrite fmap_cons in Hentries, Hcounts. simpl in Hentries.
  apply bind_Ok in Hentries as (s' & Hs & Hentries).
  apply bind_Ok in Hentries as (rest & Hrest & Hentries).
  injection Hentries as -> ->.
  apply Forall_cons in Hcounts as [Hs1 Hcounts]. simpl in Hs1.
  apply bind_Ok in Hs as (pct & Hpct & Hs). injection Hs as Hs.
  constructor; [ | apply IH; assumption].
  split; [exact Hs1 | ].
  rewrite <- Hs. simpl.
  apply (round_percentage_range (count s) (df_len df)); [lia | exact Hpct].
Qed.

(** [calculate_language_stats] is total on frames whose language cells
    are hashable, and raises [TypeError] as soon as one is a list or an
    object; it never raises [ZeroDivisionError] on a frame whose columns
    are as long as its index. *)
Theorem calculate_language_stats_total (df : DataFrame) :
  length (language_cells df) <= df_len df ->
  (forallb hashable (language_cells df) = true ->
   exists stats, calculate_language_stats tie_up df = Ok stats)
  /\ (forallb hashable (language_cells df) = false ->
      calculate_language_stats tie_up df = Err TypeError).
Proof.
  intros Hlen. unfold calculate_language_stats, language_cells in *.
  destruct (column_get (df_data df) "original_lang") as [cells|]; simpl in *.
  - split; intros Hhash; unfold value_counts; rewrite Hhash;
      [ | reflexivity].
    simpl. destruct (df_len df) as [|n] eqn:Hn.
    + assert (cells = []) as -> by (destruct cells; simpl in *; [auto | lia]).
      exists []. reflexivity.
    + destruct (language_entries_sum tie_up (S n)
                  (sort_by_count
                     (tally (filter (fun v => isna v = false) cells))))
        as (stats & Hstats & _); [lia | eauto].
  - split; [eauto | discriminate].
Qed.

End LanguageFurther.

Lemma bump_str_keys (s : string) (acc : list (pyval * nat)) :
  Forall (fun x : pyval * nat => is_str x.1 = true) acc ->
  NoDup acc.*1 ->
  Forall (fun x : pyval * nat => is_str x.1 = true) (bump (PStr s) acc)
  /\ NoDup (bump (PStr s) acc).*1
  /\ forall k, k ∈ (bump (PStr s) acc).*1 -> k = PStr s \/ k ∈ acc.*1.
Proof.
  induction acc as [|[u n] acc IH]; intros Hstr Hnd.
  - simpl. split; [repeat constructor | split].
    + apply NoDup_singleton.
    + intros k Hk. left. apply list_elem_of_singleton in Hk. exact Hk.
  - apply Forall_cons in Hstr as [Hu Hstr]. simpl in Hu.
    rewrite ?fmap_cons in Hnd. simpl in Hnd.
    apply NoDup_cons in Hnd as [Hnotin Hnd].
    destruct u as [| | | |a| |]; try discriminate. simpl.
    destruct (String.eqb a s) eqn:E.
    + split; [constructor; [reflexivity | exact Hstr] | ].
      rewrite ?fmap_cons. simpl. split.
      * apply NoDup_cons. split; assumption.
      * intros k Hk. right. rewrite ?fmap_cons. exact Hk.
    + destruct (IH Hstr Hnd) as (IHstr & IHnd & IHin).
      split; [constructor; [reflexivity | exact IHstr] | ].
      rewrite ?fmap_cons. simpl. split.
      * apply NoDup_cons. split; [ | exact IHnd].
        intros Hin. apply IHin in Hin as [Heq | Hin]; [ | contradiction].
        injection Heq as ->. rewrite String.eqb_refl in E. discriminate.
      * intros k [-> | Hk]%elem_of_cons; [right; left | ].
        apply IHin in Hk as [-> | Hk]; [left; reflexivity | right; right].
        exact Hk.
Qed.

Lemma tally_str_keys (cells : list pyval) :
  forallb is_str cells = true -> NoDup (tally cells).*1.
Proof.
  unfold tally.
  cut (forall acc,
         Forall (fun x : pyval * nat => is_str x.1 = true) acc ->
         NoDup acc.*1 ->
         forallb is_str cells = true ->
         NoDup (fold_left (fun acc v => bump v acc) cells acc).*1).
  { intros H. apply H; constructor. }
  induction cells as [|v cells IH]; intros acc Hstr Hnd Hcells; simpl;
    [exact Hnd | ].
  simpl in Hcells. apply andb_prop in Hcells as [Hv Hcells].
  destruct v as [| | | |s| |]; try discriminate.
  destruct (bump_str_keys s acc Hstr Hnd) as (Hstr' & Hnd' & _).
  apply IH; assumption.
Qed.

Lemma insert_by_count_perm x l : insert_by_count x l ≡ₚ x :: l.
Proof.
  induction l as [|y l IH]; simpl; [reflexivity | ].
  destruct (y.2 <=? x.2); [reflexivity | ].
  rewrite IH. apply Permutation_swap.
Qed.

Lemma sort_by_count_perm l : sort_by_count l ≡ₚ l.
Proof.
  induction l as [|x l IH]; simpl; [reflexivity | ].
  rewrite insert_by_count_perm, IH. reflexivity.
Qed.

Lemma present_cells_str (cells : list pyval) :
  forallb (fun v => isna v || is_str v) cells = true ->
  forallb is_str (filter (fun v => isna v = false) cells) = true.
Proof.
  induction cells as [|v cells IH]; [reflexivity | ].
  simpl. intros [Hv Hcells]%andb_prop.
  rewrite filter_cons. destruct (decide (isna v = false)) as [Hna|Hna].
  - simpl. rewrite Hna in Hv. simpl in Hv. rewrite Hv. simpl. auto.
  - auto.
Qed.

(** When the languages are strings, every language has one entry: no code
    comes twice in the distribution. *)
Theorem language_codes_distinct (tie_up : nat -> nat -> bool)
    (df : DataFrame) (stats : list LanguageStat) :
  calculate_language_stats tie_up df = Ok stats ->
  forallb (fun v => isna v || is_str v) (language_cells df) = true ->
  NoDup (code <$> stats).
Proof.
  intros H Hcells. apply calculate_language_stats_Ok in H as [H _].
  apply present_cells_str, tally_str_keys in Hcells as Hstr.
  rewrite <- (sort_by_count_perm (tally _)), <- H in Hstr.
  rewrite <- list_fmap_compose in Hstr. exact Hstr.
Qed.

(** ** Persistence, once more *)

Lemma str_take_length (n : nat) (s : string) :
  String.length (str_take n s) <= n.
Proof.
  revert s. induction n as [|n IH]; intros [|c s]; simpl; try lia.
  specialize (IH s). lia.
Qed.

Lemma str_take_chars (P : ascii -> bool) (n : nat) (s : string) :
  forallb P (String.list_ascii_of_string s) = true ->
  forallb P (String.list_ascii_of_string (str_take n s)) = true.
Proof.
  revert s. induction n as [|n IH]; intros [|c s]; simpl; try reflexivity.
  intros [Hc Hs]%andb_prop. rewrite Hc. simpl. auto.
Qed.

Lemma str_replace_chars (old new : ascii) (s : string) :
  String.list_ascii_of_string (str_replace old new s)
  = (fun c => if Ascii.eqb c old then new else c)
      <$> String.list_ascii_of_string s.
Proof.
  induction s as [|c s IH]; [reflexivity | ].
  simpl. rewrite IH. reflexivity.
Qed.

Lemma sanitized_chars (c : ascii) :
  safe_char
    (let c1 := if Ascii.eqb c " " then "_"%char else c in
     let c2 := if Ascii.eqb c1 "/" then "_"%char else c1 in
     if Ascii.eqb c2 "\" then "_"%char else c2) = true.
Proof.
  cbv zeta. unfold safe_char.
  destruct (Ascii.eqb c " ") eqn:E1; [reflexivity | ].
  destruct (Ascii.eqb c "/") eqn:E2; [reflexivity | ].
  destruct (Ascii.eqb c "\") eqn:E3; [reflexivity | ].
  rewrite E1, E2, E3. reflexivity.
Qed.

Lemma sanitize_query_chars (search_query : pyval) (sanitized : string) :
  sanitize_query search_query = Ok sanitized ->
  forallb safe_char (String.list_ascii_of_string sanitized) = true.
Proof.
  destruct search_query as [| | | |s| |]; try discriminate.
  unfold sanitize_query. intros H.
  assert (Heq : sanitized
                = str_take 30
                    (str_replace "\" "_"
                       (str_replace "/" "_" (str_replace " " "_" s))))
    by congruence.
  rewrite Heq. clear H Heq.
  apply str_take_chars.
  rewrite !str_replace_chars, <- !list_fmap_compose.
  induction (String.list_ascii_of_string s) as [|c l IH]; [reflexivity | ].
  rewrite fmap_cons. simpl. rewrite IH, andb_true_r.
  apply sanitized_chars.
Qed.

(** The part of the file name that comes from the query has at most 30
    characters and holds no blank, no slash and no backslash; a query that
    is not a string has no such part, [AttributeError] is raised. *)
Theorem sanitize_query_safe (search_query : pyval) :
  match sanitize_query search_query with
  | Ok sanitized =>
      (exists s, search_query = PStr s)
      /\ String.length sanitized <= 30
      /\ forallb safe_char (String.list_ascii_of_string sanitized) = true
  | Err e => e = AttributeError /\ forall s, search_query <> PStr s
  end.
Proof.
  destruct search_query as [| | | |s| |]; unfold sanitize_query;
    try (split; [reflexivity | discriminate]).
  split; [eauto | ]. split; [apply str_take_length | ].
  apply (sanitize_query_chars (PStr s)). reflexivity.
Qed.

Section SaveFurther.
Variable tie_up : nat -> nat -> bool.
Variable strftime_now : World -> string.

(** A successful save writes one envelope under two names, the file of
    the query and the latest file, which are different files; every other
    file, the request log and the clock stay as they were. *)
Theorem save_writes_two_files (df : DataFrame) (search_query : pyval)
    (w : World) (filename : string) (w' : World) :
  save_tweets_with_sentiment tie_up strftime_now df search_query w
  = (Ok filename, w') ->
  exists sanitized envelope,
    sanitize_query search_query = Ok sanitized
    /\ filename
       = "data/tweets_" +:+ sanitized +:+ "_" +:+ strftime_now w +:+ ".json"
    /\ filename <> "data/latest_tweets.json"
    /\ w_files w' !! filename = Some (JsonFile envelope)
    /\ w_files w' !! "data/latest_tweets.json" = Some (JsonFile envelope)
    /\ (forall path,
          path <> filename -> path <> "data/latest_tweets.json" ->
          w_files w' !! path = w_files w !! path)
    /\ w_requests w' = w_requests w
    /\ w_slept w' = w_slept w.
Proof.
  unfold save_tweets_with_sentiment.
  destruct (calculate_language_stats tie_up df) as [stats|e];
    [ | discriminate].
  destruct (sanitize_query search_query) as [sanitized|e]; [ | discriminate].
  intros [= <- <-].
  assert (Hne : "data/tweets_" +:+ sanitized +:+ "_" +:+ strftime_now w
                +:+ ".json" <> "data/latest_tweets.json").
  { unfold String.append. simpl. discriminate. }
  eexists sanitized, _. split; [reflexivity | ]. split; [reflexivity | ].
  split; [exact Hne | ]. simpl.
  split; [rewrite lookup_insert_ne by congruence; apply lookup_insert_eq | ].
  split; [apply lookup_insert_eq | ].
  split; [ | split; reflexivity].
  intros path Hp1 Hp2. rewrite !lookup_insert_ne by congruence. reflexivity.
Qed.


End SaveFurther.

(** ** The search handler, once more *)

Lemma append_cons (c : ascii) (a b : string) :
  String c a +:+ b = String c (a +:+ b).
Proof. reflexivity. Qed.






Section VariableFurther.
Variable config : TwitterConfig.
Variable upstream : nat -> outcome.
Variable tie_up : nat -> nat -> bool.
Variable strftime_now : World -> string.
Variable clean_dataframe :
  DataFrame -> pyval -> World -> result DataFrame * World.
Variable analyze : DataFrame -> World -> result pyval * World.
Variable str_exn : exn -> string.


(** [POST /api/variable] answers 400 exactly when [searchQuery] is absent
    or falsy (the empty string, null, false, 0, an empty list or object);
    for every other object body it runs the pipeline and answers 200 or
    500, and no exception leaves the handler.  A body that is not an
    object makes it raise [AttributeError] before anything is done. *)
Theorem variable_status (request_json : pyval) (w : World) :
  match request_json with
  | PDict d =>
      exists resp w',
        variable config upstream tie_up strftime_now clean_dataframe
          analyze str_exn request_json w = (Ok resp, w')
        /\ (status resp = 400%Z /\ w' = w
            /\ truthy (default (PStr "") (dict_get d "searchQuery")) = false
            \/ (status resp = 200%Z \/ status resp = 500%Z)
               /\ truthy (default (PStr "") (dict_get d "searchQuery"))
                  = true)
  | _ =>
      variable config upstream tie_up strftime_now clean_dataframe analyze
        str_exn request_json w = (Err AttributeError, w)
  end.
Proof.
  destruct request_json as [| | | | | |d]; try reflexivity.
  unfold variable. simpl.
  destruct (truthy (default (PStr "") (dict_get d "searchQuery"))) eqn:Hq;
    simpl.
  - destruct (variable_pipeline _ _ _ _ _ _ _ _) as [[r|e] w'];
      eexists _, _; (split; [reflexivity | right; simpl; auto]).
  - eexists _, _. split; [reflexivity | left; auto].
Qed.

(** When the fetch fails the answer is 500 with the text of the
    exception; the cleaner and the analyser are not run and no file is
    written: the world is as the fetch left it. *)
Theorem variable_fetch_failure (d : dict) (w : World) (e : exn)
    (w1 : World) :
  truthy (default (PStr "") (dict_get d "searchQuery")) = true ->
  fetch_tweets config upstream
    (default (PStr "") (dict_get d "searchQuery")) w = (Err e, w1) ->
  variable config upstream tie_up strftime_now clean_dataframe analyze
    str_exn (PDict d) w
  = (Ok {| status := 500;
           body := PDict
             [ ("error", PStr (str_exn e));
               ("message", PStr "Failed to fetch or process Twitter data") ]
        |}, w1)
  /\ w_files w1 = w_files w.
Proof.
  intros Hq Hfetch. split.
  - unfold variable, variable_pipeline. simpl. rewrite Hq. simpl.
    rewrite Hfetch. reflexivity.
  - pose proof (fetch_tweets_requests_bound config upstream
                  (default (PStr "") (dict_get d "searchQuery")) w)
      as (_ & _ & Hfiles).
    rewrite Hfetch in Hfiles. exact Hfiles.
Qed.


End VariableFurther.

(** ** Trends *)

Section TrendsProperties.
Variable config : TwitterConfig.
Variable TRENDS_URL : string.
Variable upstream : nat -> outcome.
Variable str_exn : exn -> string.
Variable json_error_is_request_exception : bool.




(** Whatever happens, [fetch_trends] makes one request, to the trends
    endpoint with the [woeid], and nothing else.  Every exception it
    raises is a plain [Exception] whose message starts with "Network
    error while fetching trends: " when [requests.get] raised, and with
    "Unexpected error while fetching trends: " when the status was not
    200: the "API request failed" exception of the status check is caught
    and wrapped by the handler meant for unexpected errors. *)
Theorem fetch_trends_failures (woeid : pyval) (w : World) :
  (fetch_trends config TRENDS_URL upstream str_exn
     json_error_is_request_exception woeid w).2
  = log_request (trends_request config TRENDS_URL woeid) w
  /\ (forall e,
        (fetch_trends config TRENDS_URL upstream str_exn
           json_error_is_request_exception woeid w).1 = Err e ->
        exists text,
          e = Exception ("Network error while fetching trends: " +:+ text)
          \/ e = Exception
                   ("Unexpected error while fetching trends: " +:+ text))
  /\ (forall msg,
        upstream (length (w_requests w)) = Raised msg ->
        (fetch_trends config TRENDS_URL upstream str_exn
           json_error_is_request_exception woeid w).1
        = Err (Exception ("Network error while fetching trends: " +:+ msg)))
  /\ (forall status_code text json,
        upstream (length (w_requests w)) = Response status_code text json ->
        status_code <> 200%Z ->
        (fetch_trends config TRENDS_URL upstream str_exn
           json_error_is_request_exception woeid w).1
        = Err (Exception
                 ("Unexpected error while fetching trends: "
                  +:+ "API request failed: " +:+ pretty status_code
                  +:+ " - " +:+ text))).
Proof.
  unfold fetch_trends. simpl.
  split; [ | split; [ | split]].
  - destruct (trends_response _) as [out|e]; [reflexivity | ].
    destruct (is_request_exception _ e); reflexivity.
  - intros e. destruct (trends_response _) as [out|e']; [discriminate | ].
    destruct (is_request_exception _ e'); simpl; intros [= <-]; eauto.
  - intros msg ->. reflexivity.
  - intros status_code text json -> Hstatus. simpl.
    apply Z.eqb_neq in Hstatus. rewrite Hstatus. reflexivity.
Qed.

(** A response with status 200 that holds anything but a non-empty list
    (null, an object, a string, a number, the empty list), or a list whose
    first element is an object without trends, gives the empty list of
    trends and no error. *)
Theorem fetch_trends_nothing (woeid : pyval) (w : World)
    (status_code : Z) (text : string) (data : pyval) :
  upstream (length (w_requests w)) = Response status_code text (Some data) ->
  status_code = 200%Z ->
  (forall first rest, data <> PList (first :: rest))
  \/ (exists d rest,
        data = PList (PDict d :: rest)
        /\ truthy (default (PList []) (dict_get d "trends")) = false) ->
  (fetch_trends config TRENDS_URL upstream str_exn
     json_error_is_request_exception woeid w).1 = Ok [].
Proof.
  intros Hup -> Hdata. unfold fetch_trends. simpl. rewrite Hup. simpl.
  destruct Hdata as [Hdata | (d & rest & -> & Htrends)].
  - destruct data as [| | | | |[|first rest]|]; try reflexivity.
    destruct (Hdata first rest eq_refl).
  - simpl. rewrite Htrends. reflexivity.
Qed.

End TrendsProperties.

(** ** Translations *)

Lemma str_app_assoc (a b c : string) : (a +:+ b) +:+ c = a +:+ (b +:+ c).
Proof.
  induction a as [|x a IH]; [reflexivity | ].
  rewrite !append_cons, IH. reflexivity.
Qed.

Lemma strip_prefix_app (p r : string) : strip_prefix p (p +:+ r) = Some r.
Proof.
  induction p as [|x p IH]; [reflexivity | ].
  rewrite append_cons. simpl. rewrite Ascii.eqb_refl. exact IH.
Qed.

Lemma strip_prefix_Some (p s r : string) :
  strip_prefix p s = Some r -> s = p +:+ r.
Proof.
  revert s. induction p as [|x p IH]; intros s; simpl.
  - intros [= ->]. reflexivity.
  - destruct s as [|y s]; [discriminate | ].
    destruct (Ascii.eqb x y) eqn:E; [ | discriminate].
    apply Ascii.eqb_eq in E as ->. intros H.
    rewrite append_cons, (IH s H). reflexivity.
Qed.









Lemma stored_key (fs : gmap string file) (k : string) :
  k ∈ elements (dom fs) <-> is_Some (fs !! k).
Proof. rewrite elem_of_elements. apply elem_of_dom. Qed.

Lemma is_directory_spec (fs : gmap string file) (path : string) :
  is_directory fs path = true
  <-> exists more, is_Some (fs !! ((path +:+ "/") +:+ more)).
Proof.
  unfold is_directory. rewrite existsb_exists. split.
  - intros (k & Hk & Hpre).
    apply list_elem_of_In, stored_key in Hk.
    apply bool_decide_eq_true in Hpre as (more & Hmore).
    apply strip_prefix_Some in Hmore as ->. eauto.
  - intros (more & Hk). exists ((path +:+ "/") +:+ more). split.
    + apply list_elem_of_In, stored_key. exact Hk.
    + apply bool_decide_eq_true. rewrite strip_prefix_app. eauto.
Qed.

Lemma os_path_exists_spec (fs : gmap string file) (path : string) :
  os_path_exists fs path = true
  <-> is_Some (fs !! path)
      \/ exists more, is_Some (fs !! ((path +:+ "/") +:+ more)).
Proof.
  unfold os_path_exists. rewrite orb_true_iff, bool_decide_eq_true.
  rewrite is_directory_spec. reflexivity.
Qed.

Lemma os_listdir_spec (fs : gmap string file) (dir entry : string) :
  entry ∈ os_listdir fs dir
  <-> entry <> ""
      /\ exists rest,
           is_Some (fs !! ((dir +:+ "/") +:+ rest))
           /\ first_component rest = entry.
Proof.
  unfold os_listdir. rewrite elem_of_remove_dups, list_elem_of_omap. split.
  - intros (k & Hk & Hentry). apply stored_key in Hk.
    destruct (strip_prefix (dir +:+ "/") k) as [rest|] eqn:Hrest;
      [ | discriminate].
    apply strip_prefix_Some in Hrest as ->.
    destruct (first_component rest) as [|c e] eqn:Hfirst; [discriminate | ].
    injection Hentry as <-. split; [discriminate | eauto].
  - intros (Hne & rest & Hk & Hfirst).
    exists ((dir +:+ "/") +:+ rest). split; [apply stored_key; exact Hk | ].
    rewrite strip_prefix_app, Hfirst.
    destruct entry; [contradiction | reflexivity].
Qed.




Section TranslationProperties.
Variable str_exn : exn -> string.
Variable is_a_directory_error : exn.
Variable not_a_directory_error : exn.




(** The translation handlers read files below [server/] only: two worlds
    with the same files there get the same translation for every id and
    the same ids listed. *)
Lemma translations_read_server_files (w w' : World) :
  same_server_files (w_files w) (w_files w') ->
  (forall tweet_id,
     get_translation str_exn is_a_directory_error tweet_id w'
     = get_translation str_exn is_a_directory_error tweet_id w)
  /\ forall id,
       id ∈ listed_translations
              (list_translations str_exn not_a_directory_error w')
       <-> id ∈ listed_translations
                  (list_translations str_exn not_a_directory_error w).
Proof.
  intros Hsame. unfold same_server_files in Hsame.
  assert (Hexists : forall rest,
            os_path_exists (w_files w') ("server/" +:+ rest)
            = os_path_exists (w_files w) ("server/" +:+ rest)).
  { intros rest. apply eq_true_iff_eq. rewrite !os_path_exists_spec.
    rewrite Hsame. setoid_rewrite str_app_assoc.
    setoid_rewrite str_app_assoc. setoid_rewrite Hsame. reflexivity. }
  split.
  - intros tweet_id. unfold get_translation.
    change ("server/data/translations/" +:+ tweet_id +:+ ".json")
      with ("server/" +:+ ("data/translations/" +:+ tweet_id +:+ ".json")).
    rewrite Hexists, Hsame. reflexivity.
  - intros id.
    assert (Hlist : forall entry,
              entry ∈ os_listdir (w_files w') "server/data/translations"
              <-> entry ∈ os_listdir (w_files w) "server/data/translations").
    { intros entry. rewrite !os_listdir_spec.
      change ("server/data/translations" +:+ "/")
        with ("server/" +:+ "data/translations/").
      setoid_rewrite str_app_assoc. setoid_rewrite Hsame. reflexivity. }
    unfold list_translations.
    pose proof (Hexists "data/translations") as Hdir.
    pose proof (Hsame "data/translations") as Hfile.
    change ("server/" +:+ "data/translations")
      with "server/data/translations" in Hdir, Hfile.
    rewrite Hdir, Hfile. clear Hdir Hfile.
    destruct (os_path_exists (w_files w) _); simpl; [ | reflexivity].
    destruct (w_files w !! _); [reflexivity | ].
    unfold listed_translations. simpl.
    rewrite !list_elem_of_fmap.
    split; intros (x & -> & Hx); exists x; (split; [reflexivity | ]);
      apply list_elem_of_fmap in Hx as (f & -> & Hf);
      apply list_elem_of_fmap; exists f; (split; [reflexivity | ]);
      apply list_elem_of_filter in Hf as [Hends Hf];
      apply list_elem_of_filter; (split; [exact Hends | ]);
      apply Hlist; exact Hf.
Qed.

End TranslationProperties.

Section SaveAndTranslations.
Variable tie_up : nat -> nat -> bool.
Variable strftime_now : World -> string.
Variable str_exn : exn -> string.
Variable is_a_directory_error : exn.
Variable not_a_directory_error : exn.

(** Saving a search, whether it succeeds or raises, leaves the translation
    handlers as they were: every id gets the same answer from
    [get_translation] and the same ids are listed. *)
Theorem save_leaves_translations (df : DataFrame) (search_query : pyval)
    (w : World) :
  let w' :=
    (save_tweets_with_sentiment tie_up strftime_now df search_query w).2 in
  (forall tweet_id,
     get_translation str_exn is_a_directory_error tweet_id w'
     = get_translation str_exn is_a_directory_error tweet_id w)
  /\ forall id,
       id ∈ listed_translations
              (list_translations str_exn not_a_directory_error w')
       <-> id ∈ listed_translations
                  (list_translations str_exn not_a_directory_error w).
Proof.
  apply translations_read_server_files. intros rest.
  unfold save_tweets_with_sentiment.
  destruct (calculate_language_stats tie_up df) as [stats|e];
    [ | reflexivity].
  destruct (sanitize_query search_query) as [sanitized|e]; [ | reflexivity].
  simpl. rewrite !lookup_insert_ne; [reflexivity | | ];
    unfold String.append; simpl; discriminate.
Qed.

End SaveAndTranslations.

(** * The further properties on sample inputs *)

(** The upstream answers 503 to the initial request. *)
Lemma fetch_tweets_initial_failure_witness :
  fetch_tweets sample_config upstream_unavailable (PStr "rocq") empty_world
  = (Err (Exception ("API request failed: " +:+ pretty 503%Z
                     +:+ " - " +:+ "Service Unavailable")),
     log_request (first_request sample_config (PStr "rocq")) empty_world).
Proof.
  apply (proj2 (fetch_tweets_initial_failure sample_config
                  upstream_unavailable (PStr "rocq") empty_world)
           503%Z "Service Unavailable" None).
  - reflexivity.
  - discriminate.
Defined.

(** A page with a token, then a page with results and no token. *)
Lemma fetch_tweets_stops_without_token_witness :
  exists recs w',
    mapM_result _process_tweet_data
      (raw_results upstream_repeating (length (w_requests empty_world)) 2)
    = Ok recs
    /\ fetch_tweets sample_config upstream_repeating (PStr "rocq")
         empty_world = (Ok (pd_DataFrame recs), w')
    /\ requests_issued empty_world w' = 2.
Proof.
  apply (fetch_tweets_stops_without_token sample_config upstream_repeating
           (PStr "rocq") empty_world 1).
  - unfold max_pages. lia.
  - intros i Hi. destruct i; [split; reflexivity | lia].
  - reflexivity.
  - reflexivity.
  - reflexivity.
Defined.

(** A page with a token, then a page without results. *)
Lemma fetch_tweets_stops_without_results_witness :
  exists recs w',
    mapM_result _process_tweet_data
      (raw_results upstream_runs_dry (length (w_requests empty_world)) 1)
    = Ok recs
    /\ fetch_tweets sample_config upstream_runs_dry (PStr "rocq")
         empty_world = (Ok (pd_DataFrame recs), w')
    /\ requests_issued empty_world w' = 1 + 1.
Proof.
  apply (fetch_tweets_stops_without_results sample_config upstream_runs_dry
           (PStr "rocq") empty_world 1).
  - unfold max_pages. lia.
  - intros i Hi. destruct i; [split; reflexivity | lia].
  - reflexivity.
Defined.

(** The frame of two pages with one tweet each. *)
Lemma fetch_tweets_frame_shape_witness :
  let df := pd_DataFrame [sample_record; sample_record] in
  0 < df_len df
  /\ df_columns df = record_keys
  /\ Forall (fun col : string * list pyval => length col.2 = df_len df)
            (df_data df)
  /\ forall c, c ∈ count_fields ->
       exists cells,
         column_get (df_data df) c = Some cells
         /\ forallb is_int cells = true.
Proof.
  apply (fetch_tweets_frame_shape sample_config upstream_repeating
           (PStr "rocq") empty_world
           (pd_DataFrame [sample_record; sample_record])
           (fetch_tweets sample_config upstream_repeating (PStr "rocq")
              empty_world).2).
  vm_compute. reflexivity.
Defined.


(** Three rows with [id], [text] and [original_lang]. *)
Lemma prepare_tweet_data_rows_witness :
  exists tweets,
    prepare_tweet_data two_languages = Ok tweets
    /\ length tweets = df_len two_languages
    /\ Forall (fun t : dict => t.*1 = prepared_keys) tweets.
Proof.
  apply (proj1 (prepare_tweet_data_rows two_languages)).
  - vm_compute. eauto.
  - vm_compute. eauto.
Defined.

(** The second of the three rows is in Hindi. *)
Lemma prepare_tweet_data_translation_flag_witness :
  let t := default [] (returned [] (prepare_tweet_data two_languages) !! 1) in
  dict_get t "original_lang" = Some (row_language two_languages 1)
  /\ dict_get t "has_translation"
     = Some (PBool (negb (py_eq (row_language two_languages 1)
                            (PStr "en")))).
Proof.
  apply (prepare_tweet_data_translation_flag two_languages
           (returned [] (prepare_tweet_data two_languages)) 1).
  - reflexivity.
  - reflexivity.
Defined.

(** Three tweets in two languages. *)
Lemma language_counts_sum_witness :
  sum_stat_counts
    (returned [] (calculate_language_stats no_ties two_languages))
  = rows_with_language two_languages.
Proof.
  apply (language_counts_sum no_ties two_languages). reflexivity.
Defined.

Lemma language_stats_sorted_witness :
  StronglySorted (fun a b => count b <= count a)
    (returned [] (calculate_language_stats no_ties two_languages)).
Proof.
  apply (language_stats_sorted no_ties two_languages). reflexivity.
Defined.

Lemma language_stats_ranges_witness :
  Forall (fun s => 1 <= count s <= df_len two_languages
                   /\ (0 <= percentage s <= 1000)%Z)
    (returned [] (calculate_language_stats no_ties two_languages)).
Proof.
  apply (language_stats_ranges no_ties two_languages).
  - reflexivity.
  - vm_compute. lia.
Defined.

Lemma calculate_language_stats_total_witness :
  exists stats, calculate_language_stats no_ties two_languages = Ok stats.
Proof.
  apply (proj1 (calculate_language_stats_total no_ties two_languages
                  ltac:(vm_compute; lia))).
  reflexivity.
Defined.

Lemma language_codes_distinct_witness :
  NoDup (code <$> returned []
                    (calculate_language_stats no_ties six_languages)).
Proof.
  apply (language_codes_distinct no_ties six_languages).
  - reflexivity.
  - reflexivity.
Defined.

(** Saving three tweets found for "rocq prover". *)
Lemma save_writes_two_files_witness :
  let saved :=
    save_tweets_with_sentiment no_ties sample_clock two_languages
      (PStr "rocq prover") empty_world in
  let filename := returned "" saved.1 in
  exists sanitized envelope,
    sanitize_query (PStr "rocq prover") = Ok sanitized
    /\ filename
       = "data/tweets_" +:+ sanitized +:+ "_" +:+ sample_clock empty_world
         +:+ ".json"
    /\ filename <> "data/latest_tweets.json"
    /\ w_files saved.2 !! filename = Some (JsonFile envelope)
    /\ w_files saved.2 !! "data/latest_tweets.json"
       = Some (JsonFile envelope)
    /\ (forall path,
          path <> filename -> path <> "data/latest_tweets.json" ->
          w_files saved.2 !! path = w_files empty_world !! path)
    /\ w_requests saved.2 = w_requests empty_world
    /\ w_slept saved.2 = w_slept empty_world.
Proof.
  apply (save_writes_two_files no_ties sample_clock two_languages
           (PStr "rocq prover") empty_world).
  reflexivity.
Defined.

(** A search against an upstream that answers 503. *)
Lemma variable_fetch_failure_witness :
  let w1 :=
    (fetch_tweets sample_config upstream_unavailable (PStr "rocq prover")
       empty_world).2 in
  variable sample_config upstream_unavailable no_ties sample_clock
    sample_clean sample_analyze sample_str_exn (PDict sample_search_body)
    empty_world
  = (Ok {| status := 500;
           body := PDict
             [ ("error",
                 PStr (sample_str_exn
                         (Exception
                            ("API request failed: " +:+ pretty 503%Z
                             +:+ " - " +:+ "Service Unavailable"))));
               ("message", PStr "Failed to fetch or process Twitter data") ]
        |}, w1)
  /\ w_files w1 = w_files empty_world.
Proof.
  apply (variable_fetch_failure sample_config upstream_unavailable no_ties
           sample_clock sample_clean sample_analyze sample_str_exn
           sample_search_body empty_world).
  - reflexivity.
  - reflexivity.
Defined.



(** The upstream answers 503. *)
Lemma fetch_trends_failures_witness :
  (fetch_trends sample_config sample_trends_url upstream_unavailable
     sample_str_exn true (PStr "1") empty_world).1
  = Err (Exception
           ("Unexpected error while fetching trends: "
            +:+ "API request failed: " +:+ pretty 503%Z
            +:+ " - " +:+ "Service Unavailable")).
Proof.
  apply (proj2 (proj2 (proj2
           (fetch_trends_failures sample_config sample_trends_url
              upstream_unavailable sample_str_exn true (PStr "1")
              empty_world)))
           503%Z "Service Unavailable" None).
  - reflexivity.
  - discriminate.
Defined.

(** The upstream answers with an empty list. *)
Lemma fetch_trends_nothing_witness :
  (fetch_trends sample_config sample_trends_url upstream_no_trends
     sample_str_exn true (PStr "1") empty_world).1 = Ok [].
Proof.
  apply (fetch_trends_nothing sample_config sample_trends_url
           upstream_no_trends sample_str_exn true (PStr "1") empty_world
           200%Z "" (PList [])).
  - reflexivity.
  - reflexivity.
  - left. intros first rest. discriminate.
Defined.

